(** * junkdrawer: the WordPress post-link harvester and the XML pretty-printer

    A shallow embedding of [getWordpressLinks.py] and [mybin/prettyxml.py].

    Python [str] values are [string]s holding the UTF-8 encoding of the
    text (the order of [str] is then the order of the bytes, and '#', '/',
    ':' and '?' are single bytes), Python [int]s are [Z], the [set] of
    links is a [gset string], JSON documents are an inductive type.  The
    network is an oracle from requests to responses; the effects of the
    scripts (requests sent, sleeps, lines printed, files written) are
    collected in a trace. *)

From Stdlib Require Import ZArith String Ascii List DecimalString.
From stdpp Require Import base gmap sets list strings sorting.

(** ** Python string operations used by the scripts *)

Module PyStr.

(** [c in s] *)
Fixpoint contains (c : ascii) (s : string) : bool :=
  match s with
  | EmptyString => false
  | String a s' => if decide (a = c) then true else contains c s'
  end.

(** [s.endswith(c)] for a one-character [c] *)
Fixpoint endswith (c : ascii) (s : string) : bool :=
  match s with
  | EmptyString => false
  | String a EmptyString => bool_decide (a = c)
  | String _ s' => endswith c s'
  end.

(** [s.startswith(p)] *)
Fixpoint startswith (p s : string) : bool :=
  match p, s with
  | EmptyString, _ => true
  | String a p', String b s' => if decide (a = b) then startswith p' s' else false
  | String _ _, EmptyString => false
  end.

(** [s.split(c)[0]]: the part of [s] before the first [c] (all of [s]
    when [c] does not occur). *)
Fixpoint split_head (c : ascii) (s : string) : string :=
  match s with
  | EmptyString => EmptyString
  | String a s' => if decide (a = c) then EmptyString else String a (split_head c s')
  end.

(** [s.rstrip(c)]: [s] without its trailing run of [c]. *)
Fixpoint rstrip (c : ascii) (s : string) : string :=
  match s with
  | EmptyString => EmptyString
  | String a s' =>
      match rstrip c s' with
      | EmptyString => if decide (a = c) then EmptyString else String a EmptyString
      | r => String a r
      end
  end.

(** [s[n:]] *)
Fixpoint slice_from (n : nat) (s : string) : string :=
  match n, s with
  | O, _ => s
  | S n', String _ s' => slice_from n' s'
  | S _, EmptyString => EmptyString
  end.

(** [bool(s)]: a string is truthy when it is not empty. *)
Definition truthy (s : string) : bool :=
  match s with EmptyString => false | _ => true end.

(** [str(n)] for an [int] *)
Definition of_Z (n : Z) : string := NilZero.string_of_int (Z.to_int n).

(** [str(n)] for a length *)
Definition of_nat (n : nat) : string := NilZero.string_of_uint (Nat.to_uint n).

End PyStr.

(** [href.split("#")[0].rstrip("/")], the normalization applied to every
    link before it enters a link set (extract_links and both REST tiers). *)
Definition normalize_link (href : string) : string :=
  PyStr.rstrip "/" (PyStr.split_head "#" href).

(** A link is in normal form when it has no fragment marker and no
    trailing slash. *)
Definition normalized (s : string) : Prop :=
  PyStr.contains "#" s = false ∧ PyStr.endswith "/" s = false.

(** ** urllib.parse.urlsplit

    The splitting performed by CPython's [urllib.parse.urlsplit] (3.12):
    leading C0 control characters and spaces are dropped, tab, carriage
    return and line feed are removed everywhere, a scheme is recognised
    before the first ':' when it starts with an ASCII letter and consists of
    scheme characters only, a network location is recognised after a leading
    "//" and runs up to the first '/', '?' or '#'; then the fragment and the
    query are cut off.  The validation of bracketed hosts, which makes the
    library reject some inputs, is not part of this model. *)

Module UrlParse.

Record SplitResult := mkSplit {
  scheme : string;
  netloc : string;
  path : string;
  query : string;
  fragment : string
}.

Definition code (a : ascii) : N := N_of_ascii a.

(** _WHATWG_C0_CONTROL_OR_SPACE *)
Definition c0_or_space (a : ascii) : bool := (code a <=? 32)%N.

(** _UNSAFE_URL_BYTES_TO_REMOVE = ['\t', '\r', '\n'] *)
Definition unsafe (a : ascii) : bool :=
  (code a =? 9)%N || (code a =? 13)%N || (code a =? 10)%N.

Definition is_upper (a : ascii) : bool := (65 <=? code a)%N && (code a <=? 90)%N.
Definition is_lower (a : ascii) : bool := (97 <=? code a)%N && (code a <=? 122)%N.
Definition is_digit (a : ascii) : bool := (48 <=? code a)%N && (code a <=? 57)%N.
Definition is_alpha (a : ascii) : bool := is_upper a || is_lower a.

(** scheme_chars: letters, digits and "+-." *)
Definition scheme_char (a : ascii) : bool :=
  is_alpha a || is_digit a ||
  bool_decide (a = "+"%char) || bool_decide (a = "-"%char) || bool_decide (a = "."%char).

Definition lower_char (a : ascii) : ascii :=
  if is_upper a then ascii_of_N (code a + 32) else a.

Fixpoint lower (s : string) : string :=
  match s with
  | EmptyString => EmptyString
  | String a s' => String (lower_char a) (lower s')
  end.

Fixpoint all_chars (p : ascii → bool) (s : string) : bool :=
  match s with
  | EmptyString => true
  | String a s' => p a && all_chars p s'
  end.

(** [url.lstrip(_WHATWG_C0_CONTROL_OR_SPACE)] *)
Fixpoint lstrip_c0 (s : string) : string :=
  match s with
  | EmptyString => EmptyString
  | String a s' => if c0_or_space a then lstrip_c0 s' else s
  end.

(** [url.replace(b, "")] for the three unsafe characters *)
Fixpoint remove_unsafe (s : string) : string :=
  match s with
  | EmptyString => EmptyString
  | String a s' => if unsafe a then remove_unsafe s' else String a (remove_unsafe s')
  end.

(** [s[i+1:]] where [i] is the index of the first [c] in [s]
    (the empty string when [c] does not occur). *)
Fixpoint after_first (c : ascii) (s : string) : string :=
  match s with
  | EmptyString => EmptyString
  | String a s' => if decide (a = c) then s' else after_first c s'
  end.

(** The scheme test: [i = url.find(':')], [i > 0], [url[0]] an ASCII
    letter, every character of [url[:i]] a scheme character. *)
Definition split_scheme (url : string) : string * string :=
  let pre := PyStr.split_head ":" url in
  if PyStr.contains ":" url && PyStr.truthy pre
     && match pre with String a _ => is_alpha a | EmptyString => false end
     && all_chars scheme_char pre
  then (lower pre, after_first ":" url)
  else (EmptyString, url).

Definition netloc_delim (a : ascii) : bool :=
  bool_decide (a = "/"%char) || bool_decide (a = "?"%char) || bool_decide (a = "#"%char).

(** [_splitnetloc] on the text after the leading "//": the network
    location runs up to the first of '/', '?', '#'. *)
Fixpoint splitnetloc (s : string) : string * string :=
  match s with
  | EmptyString => (EmptyString, EmptyString)
  | String a s' =>
      if netloc_delim a then (EmptyString, s)
      else let '(n, r) := splitnetloc s' in (String a n, r)
  end.

(** [if url[:2] == '//': netloc, url = _splitnetloc(url, 2)] *)
Definition split_netloc (url : string) : string * string :=
  if PyStr.startswith "//" url then splitnetloc (PyStr.slice_from 2 url)
  else (EmptyString, url).

(** [url.split(c, 1)] when [c in url]; otherwise the url and "" *)
Definition split_once (c : ascii) (url : string) : string * string :=
  if PyStr.contains c url then (PyStr.split_head c url, after_first c url)
  else (url, EmptyString).

Definition urlsplit (url : string) : SplitResult :=
  let url := remove_unsafe (lstrip_c0 url) in
  let '(scheme, url) := split_scheme url in
  let '(netloc, url) := split_netloc url in
  let '(url, fragment) := split_once "#" url in
  let '(url, query) := split_once "?" url in
  mkSplit scheme netloc url query fragment.

End UrlParse.

(** ** The harvester: site normalizer *)

(** norm_site: "Return (full_base_url, hostname)" *)
Definition norm_site (site : string) : string * string :=
  let site :=
    if negb (PyStr.startswith "http://" site || PyStr.startswith "https://" site)
    then "https://" +:+ site else site in
  let parts := UrlParse.urlsplit site in
  let base := UrlParse.scheme parts +:+ "://" +:+ UrlParse.netloc parts in
  let host := UrlParse.netloc parts in
  (base, host).

(** ** JSON values, HTTP responses, exceptions *)

(** What [Response.json()] returns.  A [JObj] lists the items of the
    resulting dict (distinct keys, insertion order); a number matters here
    only through its truth value, so integers stand for all numbers. *)
#[warnings="-register-all"]
Inductive json :=
| JNull
| JBool (b : bool)
| JNum (n : Z)
| JStr (s : string)
| JArr (l : list json)
| JObj (items : list (string * json)).

Inductive exn :=
| RequestException (msg : string)  (* raised by requests.get *)
| HTTPError (status : Z)           (* raised by Response.raise_for_status *)
| JSONDecodeError                  (* raised by Response.json *)
| TypeError
| KeyError (key : string)
| AttributeError.

Record request := mkRequest {
  req_url : string;
  req_params : list (string * string)
}.

Record response := mkResponse {
  status_code : Z;
  text : string;
  (** the value of [r.json()], [None] when the body is not JSON *)
  json_body : option json
}.

(** [Response.raise_for_status] raises for 400 <= status < 600, and
    [Response.ok] is true when it does not raise. *)
Definition is_error_status (s : Z) : bool := (400 <=? s)%Z && (s <? 600)%Z.
Definition ok (r : response) : bool := negb (is_error_status (status_code r)).

(** ** Effects *)

Inductive event :=
| EvGet (rq : request)                      (* requests.get(url, params=...) *)
| EvSleep                                   (* time.sleep(SLEEP) *)
| EvStderr (line : string)                  (* print(..., file=sys.stderr) *)
| EvStdout (line : string)                  (* print(...) *)
| EvWrite (path : string) (content : string) (* a file opened with "w" and closed *).

Inductive outcome (A : Type) :=
| Val (a : A)          (* normal completion *)
| Raise (e : exn)      (* an exception propagates *)
| Exit (code : Z)      (* sys.exit *)
| Diverge.             (* the fuel of a loop ran out *)
Arguments Val {A} a.
Arguments Raise {A} e.
Arguments Exit {A} code.
Arguments Diverge {A}.

(** A computation: its outcome and the events it produced, oldest first. *)
Definition M (A : Type) : Type := outcome A * list event.

Definition out {A} (m : M A) : outcome A := m.1.
Definition trace {A} (m : M A) : list event := m.2.

#[export] Instance M_ret : MRet M := λ A a, (Val a, []).
#[export] Instance M_bind : MBind M := λ A B f m,
  match m with
  | (Val a, t) => let '(o, t') := f a in (o, t ++ t')
  | (Raise e, t) => (Raise e, t)
  | (Exit c, t) => (Exit c, t)
  | (Diverge, t) => (Diverge, t)
  end.

Definition emit (e : event) : M unit := (Val (), [e]).
Definition raise {A} (e : exn) : M A := (Raise e, []).
Definition sys_exit {A} (c : Z) : M A := (Exit c, []).
Definition diverge {A} : M A := (Diverge, []).

(** [try: body except Exception as e: handler(e)] *)
Definition try_except {A} (body : M A) (handler : exn → M A) : M A :=
  match body with
  | (Raise e, t) => let '(o, t') := handler e in (o, t ++ t')
  | m => m
  end.

Definition lift_exn {A} (r : exn + A) : M A :=
  match r with inl e => raise e | inr a => mret a end.

(** ** Python values: truth, iteration, subscripts *)

Definition json_truthy (v : json) : bool :=
  match v with
  | JNull => false
  | JBool b => b
  | JNum n => negb (n =? 0)%Z
  | JStr s => PyStr.truthy s
  | JArr l => match l with [] => false | _ => true end
  | JObj items => match items with [] => false | _ => true end
  end.

(** The characters of a UTF-8 string: a byte 10xxxxxx continues the
    character before it. *)
Definition utf8_continuation (a : ascii) : bool :=
  (128 <=? N_of_ascii a)%N && (N_of_ascii a <? 192)%N.

Fixpoint utf8_chars_go (cur : string) (s : string) : list string :=
  match s with
  | EmptyString => [String.rev cur]
  | String a s' =>
      if utf8_continuation a then utf8_chars_go (String a cur) s'
      else String.rev cur :: utf8_chars_go (String a EmptyString) s'
  end.

Definition utf8_chars (s : string) : list string :=
  match s with
  | EmptyString => []
  | String a s' => utf8_chars_go (String a EmptyString) s'
  end.

(** [list(v)]: what iterating over [v] yields; numbers, booleans and None
    are not iterable. *)
Definition json_iter (v : json) : exn + list json :=
  match v with
  | JArr l => inr l
  | JObj items => inr (JStr <$> items.*1)
  | JStr s => inr (JStr <$> utf8_chars s)
  | _ => inl TypeError
  end.

Fixpoint assoc (k : string) (items : list (string * json)) : option json :=
  match items with
  | [] => None
  | (k', v) :: items' => if decide (k' = k) then Some v else assoc k items'
  end.

(** [p[key]] for a string key *)
Definition getitem (p : json) (key : string) : exn + json :=
  match p with
  | JObj items =>
      match assoc key items with Some v => inr v | None => inl (KeyError key) end
  | _ => inl TypeError
  end.

(** [v.split("#")[0].rstrip("/")]: only a str has [split] *)
Definition split_rstrip (v : json) : exn + string :=
  match v with
  | JStr s => inr (normalize_link s)
  | _ => inl AttributeError
  end.

(** [{p["link"].split("#")[0].rstrip("/") for p in posts}] *)
Fixpoint link_set (posts : list json) : exn + gset string :=
  match posts with
  | [] => inr ∅
  | p :: posts' =>
      match getitem p "link" with
      | inl e => inl e
      | inr v =>
          match split_rstrip v with
          | inl e => inl e
          | inr l =>
              match link_set posts' with
              | inl e => inl e
              | inr s => inr ({[ l ]} ∪ s)
              end
          end
      end
  end.

(** [sorted(s)] for a set of strings: ascending in the order of [str] *)
Definition sorted (s : gset string) : list string :=
  merge_sort String.le (elements s).

(** ** The harvester *)

Section Harvester.

(** The world outside the script. *)

(** What [requests.get] does with a request: it raises or returns a
    response. *)
Variable net : request → exn + response.

(** [[a.get("href") for a in BeautifulSoup(html, "html.parser").select(sel)]] *)
Variable soup_select : string → string → list (option string).

(** [urllib.parse.urljoin] *)
Variable urljoin : string → string → string.

(** [str(e)], as formatted into the warnings *)
Variable str_exn : exn → string.

Definition requests_get (url : string) (params : list (string * string)) : M response :=
  let rq := mkRequest url params in
  match net rq with
  | inl e => (Raise e, [EvGet rq])
  | inr r => (Val r, [EvGet rq])
  end.

Definition raise_for_status (r : response) : M unit :=
  if is_error_status (status_code r) then raise (HTTPError (status_code r)) else mret ().

Definition response_json (r : response) : M json :=
  match json_body r with
  | Some v => mret v
  | None => raise JSONDecodeError
  end.

Definition sleep : M unit := emit EvSleep.
Definition print_stderr (line : string) : M unit := emit (EvStderr line).
Definition print_stdout (line : string) : M unit := emit (EvStdout line).

Definition wpcom_url (hostname : string) : string :=
  "https://public-api.wordpress.com/wp/v2/sites/" +:+ hostname +:+ "/posts".

Definition site_rest_url (base_url : string) : string :=
  base_url +:+ "/wp-json/wp/v2/posts".

Definition rest_params (page : Z) : list (string * string) :=
  [("per_page", "100"); ("page", PyStr.of_Z page); ("_fields", "id,link,date")].

(** The [while True] loop of fetch_posts_via_wpcom_api, from the state
    ([posts], [page]). *)
Fixpoint wpcom_loop (fuel : nat) (hostname : string) (posts : list json) (page : Z)
  : M (list json) :=
  match fuel with
  | O => diverge
  | S fuel' =>
      let url := wpcom_url hostname in
      let params := rest_params page in
      r ← requests_get url params;
      if (status_code r =? 404)%Z then mret []
      else if (status_code r =? 401)%Z then mret []
      else
        _ ← raise_for_status r;
        batch ← response_json r;
        if negb (json_truthy batch) then mret posts
        else
          items ← lift_exn (json_iter batch);
          let posts := posts ++ items in
          let page := (page + 1)%Z in
          _ ← sleep;
          wpcom_loop fuel' hostname posts page
  end.

Definition fetch_posts_via_wpcom_api (fuel : nat) (hostname : string) : M (list json) :=
  wpcom_loop fuel hostname [] 1.

(** The [while True] loop of fetch_posts_via_site_rest. *)
Fixpoint site_rest_loop (fuel : nat) (base_url : string) (posts : list json) (page : Z)
  : M (list json) :=
  match fuel with
  | O => diverge
  | S fuel' =>
      let url := site_rest_url base_url in
      let params := rest_params page in
      r ← requests_get url params;
      if bool_decide (status_code r ∈ [401; 403; 404]%Z) then mret []
      else
        _ ← raise_for_status r;
        batch ← response_json r;
        if negb (json_truthy batch) then mret posts
        else
          items ← lift_exn (json_iter batch);
          let posts := posts ++ items in
          let page := (page + 1)%Z in
          _ ← sleep;
          site_rest_loop fuel' base_url posts page
  end.

Definition fetch_posts_via_site_rest (fuel : nat) (base_url : string) : M (list json) :=
  site_rest_loop fuel base_url [] 1.

(** *** The HTML archive scraper *)

(** One round of the [for href in candidates] loop of extract_links. *)
Definition extract_candidate (base_url : string) (links : gset string)
    (href : option string) : gset string :=
  match href with
  | None => links
  | Some href =>
      if negb (PyStr.truthy href) then links
      else
        let u := UrlParse.urlsplit href in
        let '(href, u) :=
          if negb (PyStr.truthy (UrlParse.scheme u))
          then let href := urljoin base_url href in (href, UrlParse.urlsplit href)
          else (href, u) in
        if negb (bool_decide
                   (PyStr.rstrip "/" (UrlParse.scheme u +:+ "://" +:+ UrlParse.netloc u)
                    = PyStr.rstrip "/" base_url))
        then links
        else {[ normalize_link href ]} ∪ links
  end.

Definition extract_links (base_url : string) (html : string) (links : gset string)
  : gset string :=
  let candidates :=
    soup_select html "a[rel=bookmark]"
    ++ soup_select html "h1.entry-title a, h2.entry-title a, h3.entry-title a"
    ++ soup_select html "article a.permalink, article a.more-link" in
  foldl (extract_candidate base_url) links candidates.

(** [if r.ok and r.text: before = len(links); extract_links(r.text);
    got_any = len(links) > before] *)
Definition extract_page (base_url : string) (r : response) (links : gset string)
  : gset string * bool :=
  if ok r && PyStr.truthy (text r) then
    let before := size links in
    let links' := extract_links base_url (text r) links in
    (links', bool_decide (before < size links'))
  else (links, false).

(** The body of the pagination loop up to [got_any]: the requests for
    page number [page]. *)
Definition scrape_page (base_url : string) (links : gset string) (page : Z)
  : M (gset string * bool) :=
  let url1 := base_url +:+ "/page/" +:+ PyStr.of_Z page +:+ "/" in
  r1 ← requests_get url1 [];
  let '(links, got_any) := extract_page base_url r1 links in
  if negb got_any then
    let url2 := base_url +:+ "/?paged=" +:+ PyStr.of_Z page in
    r2 ← requests_get url2 [];
    mret (extract_page base_url r2 links)
  else mret (links, got_any).

(** The [while empty_streak < max_empty] loop, from the state
    ([links], [empty_streak], [page]); it returns the state at exit. *)
Fixpoint scrape_loop (fuel : nat) (base_url : string) (max_empty : Z)
    (links : gset string) (empty_streak page : Z) : M (gset string * Z * Z) :=
  if (empty_streak <? max_empty)%Z then
    match fuel with
    | O => diverge
    | S fuel' =>
        lg ← scrape_page base_url links page;
        let '(links, got_any) := (lg : gset string * bool) in
        let empty_streak := if got_any then 0%Z else (empty_streak + 1)%Z in
        let page := (page + 1)%Z in
        _ ← sleep;
        if (2000 <? page)%Z then mret (links, empty_streak, page)
        else scrape_loop fuel' base_url max_empty links empty_streak page
    end
  else mret (links, empty_streak, page).

Definition scrape_posts_from_paged_lists (fuel : nat) (base_url : string) (max_empty : Z)
  : M (list string) :=
  r ← requests_get base_url [];
  let links := if ok r then extract_links base_url (text r) ∅ else ∅ in
  st ← scrape_loop fuel base_url max_empty links 0 1;
  let '(links, _, _) := (st : gset string * Z * Z) in
  mret (sorted links).

(** *** The orchestrator *)

(** The body of each [try] block yields [Some links] when it executes
    its [return], and [None] when control falls out of the block. *)
Definition harvest_all_post_links (fuel : nat) (site : string) : M (list string) :=
  let '(base_url, hostname) := norm_site site in
  r1 ← try_except
         (wpcom_posts ← fetch_posts_via_wpcom_api fuel hostname;
          if json_truthy (JArr wpcom_posts) then
            links ← lift_exn (link_set wpcom_posts);
            mret (Some (sorted links))
          else mret None)
         (λ e, _ ← print_stderr ("[warn] WP.com API attempt failed: " +:+ str_exn e);
               mret None);
  match r1 with
  | Some links => mret links
  | None =>
      r2 ← try_except
             (site_posts ← fetch_posts_via_site_rest fuel base_url;
              if json_truthy (JArr site_posts) then
                links ← lift_exn (link_set site_posts);
                mret (Some (sorted links))
              else mret None)
             (λ e, _ ← print_stderr ("[warn] Site REST attempt failed: " +:+ str_exn e);
                   mret None);
      match r2 with
      | Some links => mret links
      | None =>
          _ ← print_stderr "[info] Falling back to HTML pagination scrape…";
          scrape_posts_from_paged_lists fuel base_url 2
      end
  end.

(** *** The CSV writer and the entry point *)

(** [csv.writer(f).writerow([field])] in the default (excel) dialect:
    the field is quoted when it holds a comma, a quote, a carriage return
    or a line feed, and a lone empty field is quoted as well; a quote
    inside a quoted field is doubled; the row ends in CR LF. *)
Definition csv_quote : ascii := "034"%char.
Definition csv_crlf : string := String "013" (String "010" EmptyString).

Definition csv_special (a : ascii) : bool :=
  bool_decide (a = ","%char) || bool_decide (a = csv_quote)
  || bool_decide (a = "013"%char) || bool_decide (a = "010"%char).

Fixpoint csv_any_special (s : string) : bool :=
  match s with
  | EmptyString => false
  | String a s' => csv_special a || csv_any_special s'
  end.

Fixpoint csv_double_quotes (s : string) : string :=
  match s with
  | EmptyString => EmptyString
  | String a s' =>
      if decide (a = csv_quote) then String a (String a (csv_double_quotes s'))
      else String a (csv_double_quotes s')
  end.

Definition csv_writerow1 (field : string) : string :=
  (if csv_any_special field || negb (PyStr.truthy field)
   then String csv_quote (csv_double_quotes field +:+ String csv_quote EmptyString)
   else field) +:+ csv_crlf.

(** The file is opened for writing, receives the header row and one row
    per link, and is closed. *)
Definition write_csv (paths : list string) (out_path : string) : M unit :=
  let w0 := csv_writerow1 "url" in
  let content := foldl (λ f url, f +:+ csv_writerow1 url) w0 paths in
  emit (EvWrite out_path content).

Definition main (fuel : nat) (argv : list string) : M unit :=
  match argv with
  | [_; site] =>
      links ← harvest_all_post_links fuel site;
      _ ← write_csv links "post_links.csv";
      print_stdout ("Found " +:+ PyStr.of_nat (length links)
                    +:+ " posts. Wrote post_links.csv")
  | _ =>
      _ ← print_stderr
            "Usage: python get_wp_post_links.py <wordpress_site_url_or_hostname>";
      _ ← print_stderr "Example: python get_wp_post_links.py myblog.wordpress.com";
      _ ← print_stderr "         python get_wp_post_links.py https://example.com";
      sys_exit 1
  end.

End Harvester.

(** ** The XML pretty-printer (mybin/prettyxml.py) *)

Module PrettyXml.

Inductive error :=
| IndexError        (* sys.argv[1] without an argument *)
| OSError           (* a file that cannot be opened *)
| XMLSyntaxError.   (* a document lxml rejects *)

Section Script.

(** The documents lxml builds. *)
Variable tree : Type.

(** [etree.parse(input_file, etree.XMLParser(remove_blank_text=True))] on
    the content of the input file: a tree, unless the content is rejected. *)
Variable etree_parse : string → option tree.

(** [etree.tostring(tree, pretty_print=True, encoding='unicode')] *)
Variable etree_tostring : tree → string.

(** Whether [open(path, 'w')] succeeds. *)
Variable can_create : string → bool.

(** The files the script can see: path to content. *)
Abbreviation files := (gmap string string).

Definition pretty_print_xml (input_file output_file : string) (fs : files)
  : error + files :=
  match fs !! input_file with
  | None => inl OSError
  | Some content =>
      match etree_parse content with
      | None => inl XMLSyntaxError
      | Some t =>
          let pretty_xml_as_string := etree_tostring t in
          if can_create output_file
          then inr (<[output_file := pretty_xml_as_string]> fs)
          else inl OSError
      end
  end.

(** The statement at module level,
    [pretty_print_xml(sys.argv[1], "pretty_" + sys.argv[1])]. *)
Definition script (argv : list string) (fs : files) : error + files :=
  match argv !! 1 with
  | None => inl IndexError
  | Some arg => pretty_print_xml arg ("pretty_" +:+ arg) fs
  end.

End Script.
End PrettyXml.

(** ** The statements of the specification about norm_site *)




(** What the code does: the scheme is "http" for an input that starts with
    "http://" and "https" for every other input; the host is read from the
    text after that prefix. *)
Definition site_scheme_rest (site : string) : string * string :=
  if PyStr.startswith "http://" site then ("http", PyStr.slice_from 7 site)
  else if PyStr.startswith "https://" site then ("https", PyStr.slice_from 8 site)
  else ("https", site).

Definition host_text (rest : string) : string :=
  (UrlParse.splitnetloc (UrlParse.remove_unsafe rest)).1.

(** ** Auxiliary statements about the harvester *)

(** One round of a REST loop, spelled out on the response.  [quiet] tells
    which statuses make the client give up quietly. *)
Definition rest_round (net : request → exn + response) (quiet : Z → bool)
    (rq : request) (posts : list json) (next : list json → M (list json))
  : M (list json) :=
  match net rq with
  | inl e => (Raise e, [EvGet rq])
  | inr r =>
      if quiet (status_code r) then (Val [], [EvGet rq])
      else if is_error_status (status_code r)
      then (Raise (HTTPError (status_code r)), [EvGet rq])
      else match json_body r with
           | None => (Raise JSONDecodeError, [EvGet rq])
           | Some batch =>
               if json_truthy batch then
                 match json_iter batch with
                 | inl e => (Raise e, [EvGet rq])
                 | inr items =>
                     let m := next (posts ++ items) in
                     (m.1, EvGet rq :: EvSleep :: m.2)
                 end
               else (Val posts, [EvGet rq])
           end
  end.

Definition wpcom_quiet (s : Z) : bool := (s =? 404)%Z || (s =? 401)%Z.
Definition site_rest_quiet (s : Z) : bool := bool_decide (s ∈ [401; 403; 404]%Z).

(** The fallback chain, in the words of the specification: a REST tier
    yields its sorted link set when it returns a non-empty collection; when
    it returns nothing, or when an exception comes out of it, it yields
    nothing, and the exception is reported on the diagnostic output. *)
Definition warn_wpcom : string := "[warn] WP.com API attempt failed: ".
Definition warn_site : string := "[warn] Site REST attempt failed: ".
Definition info_fallback : string := "[info] Falling back to HTML pagination scrape…".

Definition rest_tier (str_exn : exn → string) (label : string) (fetch : M (list json))
  : M (option (list string)) :=
  match fetch with
  | (Val [], t) => (Val None, t)
  | (Val posts, t) =>
      match link_set posts with
      | inr s => (Val (Some (sorted s)), t)
      | inl e => (Val None, t ++ [EvStderr (label +:+ str_exn e)])
      end
  | (Raise e, t) => (Val None, t ++ [EvStderr (label +:+ str_exn e)])
  | (Exit c, t) => (Exit c, t)
  | (Diverge, t) => (Diverge, t)
  end.

(** "Try (1), if empty try (2), if empty try (3)." *)
Definition first_nonempty_tier (tier1 tier2 : M (option (list string)))
    (tier3 : M (list string)) : M (list string) :=
  match tier1 with
  | (Val (Some links), t1) => (Val links, t1)
  | (Val None, t1) =>
      match tier2 with
      | (Val (Some links), t2) => (Val links, t1 ++ t2)
      | (Val None, t2) => (tier3.1, t1 ++ t2 ++ EvStderr info_fallback :: tier3.2)
      | (Raise e, t2) => (Raise e, t1 ++ t2)
      | (Exit c, t2) => (Exit c, t1 ++ t2)
      | (Diverge, t2) => (Diverge, t1 ++ t2)
      end
  | (Raise e, t1) => (Raise e, t1)
  | (Exit c, t1) => (Exit c, t1)
  | (Diverge, t1) => (Diverge, t1)
  end.


(** ** Statements about urlsplit *)

(** The text urlsplit works on, and the scheme and network location it
    reads from it. *)
Definition prepare (url : string) : string :=
  UrlParse.remove_unsafe (UrlParse.lstrip_c0 url).

Definition origin_of (url : string) : string * string :=
  ((UrlParse.split_scheme url).1,
   (UrlParse.split_netloc (UrlParse.split_scheme url).2).1).

Definition url_origin (url : string) : string * string :=
  (UrlParse.scheme (UrlParse.urlsplit url), UrlParse.netloc (UrlParse.urlsplit url)).

(** What may follow a url without changing the scheme and the network
    location read from it: a fragment, or one more slash at the end. *)
Inductive origin_suffix : string → Prop :=
| suffix_fragment z : origin_suffix (String "#" z)
| suffix_slash : origin_suffix "/".

(** [n] slashes *)
Fixpoint slashes (n : nat) : string :=
  match n with
  | O => EmptyString
  | S n' => String "/" (slashes n')
  end.

(** ** Statements about the links *)

(** The test extract_links applies to an absolute href: its scheme and
    network location, written as an origin, against the base URL. *)
Definition same_origin (base_url href : string) : bool :=
  let u := UrlParse.urlsplit href in
  bool_decide (PyStr.rstrip "/" (UrlParse.scheme u +:+ "://" +:+ UrlParse.netloc u)
               = PyStr.rstrip "/" base_url).

(** The href that is tested and stored: the candidate itself when it has a
    scheme, the candidate joined to the base URL otherwise. *)
Definition absolute_href (urljoin : string → string → string) (base_url href : string)
  : string :=
  if negb (PyStr.truthy (UrlParse.scheme (UrlParse.urlsplit href)))
  then urljoin base_url href else href.

(** A link the scraper may hold: the normal form of a same-origin href. *)
Definition scraped_link (base_url x : string) : Prop :=
  ∃ href, same_origin base_url href = true ∧ x = normalize_link href.

(** "The deduplicated, normalized set of links, sorted lexically." *)
Definition sorted_unique_links (ls : list string) : list string :=
  merge_sort String.le (remove_dups (normalize_link <$> ls)).

(** ** Statements about the pagination loop *)

(** The streak counter after a run of rounds, given whether each round
    found new links. *)
Definition streak_from (s : Z) (flags : list bool) : Z :=
  foldl (λ s (got_any : bool), if got_any then 0 else s + 1)%Z s flags.

(** The rounds the pagination loop completes from a state: for each one,
    whether its page number yielded new links. *)
Fixpoint page_flags (net : request → exn + response)
    (soup_select : string → string → list (option string))
    (urljoin : string → string → string)
    (fuel : nat) (base_url : string) (max_empty : Z)
    (links : gset string) (empty_streak page : Z) : list bool :=
  if (empty_streak <? max_empty)%Z then
    match fuel with
    | O => []
    | S fuel' =>
        match scrape_page net soup_select urljoin base_url links page with
        | (Val (links', got_any), _) =>
            got_any ::
            (if (2000 <? page + 1)%Z then []
             else page_flags net soup_select urljoin fuel' base_url max_empty links'
                    (if got_any then 0 else empty_streak + 1)%Z (page + 1)%Z)
        | _ => []
        end
    end
  else [].

(** The number of rounds without new links at the end of a run of rounds. *)
Fixpoint leading_misses (flags : list bool) : nat :=
  match flags with
  | false :: flags' => S (leading_misses flags')
  | _ => O
  end.

Definition trailing_misses (flags : list bool) : nat := leading_misses (reverse flags).

(** The number of sleeps in a trace: one per completed round. *)
Fixpoint sleeps (t : list event) : nat :=
  match t with
  | [] => O
  | EvSleep :: t' => S (sleeps t')
  | _ :: t' => sleeps t'
  end.

(** ** Example worlds *)

(** Every request is answered with the same status and an empty body. *)
Definition net_all (status : Z) : request → exn + response :=
  λ _, inr (mkResponse status "" None).

(** Every request is answered with 200 and an empty JSON array. *)
Definition net_empty_array : request → exn + response :=
  λ _, inr (mkResponse 200 "[]" (Some (JArr []))).

(** A page is its own list of bookmark hrefs, one per word. *)
Definition select_words (html sel : string) : list (option string) :=
  if decide (sel = "a[rel=bookmark]") then Some <$> String.words html else [].

(** Joining a path to a bare base URL. *)
Definition join_concat (base href : string) : string := base +:+ href.

Definition str_exn_name (e : exn) : string :=
  match e with
  | RequestException msg => msg
  | HTTPError status => PyStr.of_Z status +:+ " Error"
  | JSONDecodeError => "Expecting value"
  | TypeError => "TypeError"
  | KeyError key => key
  | AttributeError => "AttributeError"
  end.

(** The WordPress.com API knows three posts of example.com; every other
    request is answered with an empty JSON array. *)
Definition example_posts : list json :=
  [ JObj [("id", JNum 7); ("link", JStr "https://example.com/b/#more");
          ("date", JStr "2024-01-02")];
    JObj [("id", JNum 5); ("link", JStr "https://example.com/a/");
          ("date", JStr "2024-01-01")];
    JObj [("id", JNum 3); ("link", JStr "https://example.com/b");
          ("date", JStr "2023-12-31")] ].

Definition net_wpcom_posts : request → exn + response :=
  λ rq,
    if decide (req_url rq = wpcom_url "example.com" ∧ req_params rq = rest_params 1)
    then inr (mkResponse 200 "[...]" (Some (JArr example_posts)))
    else inr (mkResponse 200 "[]" (Some (JArr []))).

(** The first three archive pages hold one link each, their own address;
    nothing else exists. *)
Definition net_three_pages : request → exn + response :=
  λ rq,
    if bool_decide (req_url rq ∈ ["https://example.com/page/1/";
                                  "https://example.com/page/2/";
                                  "https://example.com/page/3/"])
    then inr (mkResponse 200 (req_url rq) None)
    else inr (mkResponse 404 "" None).

(** The loop state at exit, without the links. *)
Definition exit_counters (m : M (gset string * Z * Z)) : option (Z * Z) :=
  match out m with
  | Val (_, empty_streak, page) => Some (empty_streak, page)
  | _ => None
  end.

(** The home page links to a post of the site, to another host, to a
    relative address and to the site under another scheme; no archive page
    exists. *)
Definition net_mixed_links : request → exn + response :=
  λ rq,
    if decide (req_url rq = "https://example.com")
    then inr (mkResponse 200
                "https://example.com/a/ https://other.org/b /c#x http://example.com/d" None)
    else inr (mkResponse 404 "" None).

(** The site's own REST endpoint serves the three posts on page 1 and
    answers everything else with 403. *)
Definition net_site_rest_posts : request → exn + response :=
  λ rq,
    if decide (req_url rq = site_rest_url "https://example.com"
               ∧ req_params rq = rest_params 1)
    then inr (mkResponse 200 "[...]" (Some (JArr example_posts)))
    else inr (mkResponse 403 "" None).

(** The WordPress.com API serves one post with a link and one entry that
    is null; every other request is answered with an empty JSON array. *)
Definition odd_posts : list json :=
  [ JObj [("id", JNum 5); ("link", JStr "https://example.com/a/")]; JNull ].

Definition net_wpcom_odd_post : request → exn + response :=
  λ rq,
    if decide (req_url rq = wpcom_url "example.com" ∧ req_params rq = rest_params 1)
    then inr (mkResponse 200 "[...]" (Some (JArr odd_posts)))
    else inr (mkResponse 200 "[]" (Some (JArr []))).

(** A post from which the link can be read: a dict whose "link" is a str. *)
Definition has_link (p : json) : Prop := ∃ l, getitem p "link" = inr (JStr l).

(** The number of requests in a trace. *)
Fixpoint gets (t : list event) : nat :=
  match t with
  | [] => O
  | EvGet _ :: t' => S (gets t')
  | _ :: t' => gets t'
  end.

(** What a trace leaves behind for the user: the files written and the
    lines printed on standard output, in order. *)
Fixpoint outputs (t : list event) : list event :=
  match t with
  | [] => []
  | EvWrite path content :: t' => EvWrite path content :: outputs t'
  | EvStdout line :: t' => EvStdout line :: outputs t'
  | _ :: t' => outputs t'
  end.

(** The content write_csv gives to the file. *)
Definition csv_content (paths : list string) : string :=
  foldl (λ f url, f +:+ csv_writerow1 url) (csv_writerow1 "url") paths.

(** The three lines printed on a usage error. *)
Definition usage_lines : list event :=
  [EvStderr "Usage: python get_wp_post_links.py <wordpress_site_url_or_hostname>";
   EvStderr "Example: python get_wp_post_links.py myblog.wordpress.com";
   EvStderr "         python get_wp_post_links.py https://example.com"].

(** A link that the CSV writer leaves as it is: not empty, and without
    comma, quote, carriage return and line feed. *)
Definition csv_plain (s : string) : bool :=
  PyStr.truthy s && negb (csv_any_special s).

(** The rows of plain links: each link followed by CR LF. *)
Definition plain_rows (paths : list string) : string :=
  foldr (λ url rows, url +:+ csv_crlf +:+ rows) EmptyString paths.

(** ** Statements about the REST pagination *)

(** The server answers the request for a page with a status outside
    400-599 and a body that decodes to [batch]. *)
Definition serves (net : request → exn + response) (url : string) (page : Z)
    (batch : json) : Prop :=
  ∃ r, net (mkRequest url (rest_params page)) = inr r
       ∧ is_error_status (status_code r) = false
       ∧ json_body r = Some batch.

(** The first [n] events of the schedule of a REST client: the request
    for a page, a sleep, the request for the next page, a sleep, ... *)
Fixpoint rest_schedule (url : string) (page : Z) (n : nat) : list event :=
  match n with
  | O => []
  | S O => [EvGet (mkRequest url (rest_params page))]
  | S (S n') =>
      EvGet (mkRequest url (rest_params page)) :: EvSleep
      :: rest_schedule url (page + 1) n'
  end.

(** An API of one site that never runs out of posts. *)
Definition net_endless : request → exn + response :=
  λ _, inr (mkResponse 200 "[null]" (Some (JArr [JNull]))).

(** * Properties *)

Example normalize_link_ex1 :
  normalize_link "https://example.com/a/b/#top" = "https://example.com/a/b".
Proof. reflexivity. Qed.

Example normalize_link_ex2 : normalize_link "https://example.com///" = "https://example.com".
Proof. reflexivity. Qed.

Example normalize_link_ex3 : normalize_link "/#/" = "".
Proof. reflexivity. Qed.

(** ** Facts about the string operations *)

Lemma split_head_no_sep c s : PyStr.contains c s = false → PyStr.split_head c s = s.
Proof.
  induction s as [|a s IH]; simpl; [done|].
  destruct (decide (a = c)); [done|]. intros H. by rewrite IH.
Qed.

Lemma contains_split_head c s : PyStr.contains c (PyStr.split_head c s) = false.
Proof.
  induction s as [|a s IH]; simpl; [done|].
  destruct (decide (a = c)) as [|Hne]; simpl; [done|].
  by destruct (decide (a = c)).
Qed.

Lemma rstrip_no_trailing c s : PyStr.endswith c s = false → PyStr.rstrip c s = s.
Proof.
  induction s as [|a s IH]; [done|].
  cbn [PyStr.endswith PyStr.rstrip]. destruct s as [|b s].
  - simpl. intros H. destruct (decide (a = c)) as [->|]; [|done].
    by rewrite bool_decide_eq_true_2 in H.
  - intros H. rewrite (IH H). done.
Qed.

Lemma endswith_rstrip c s : PyStr.endswith c (PyStr.rstrip c s) = false.
Proof.
  induction s as [|a s IH]; [done|].
  cbn [PyStr.rstrip]. destruct (PyStr.rstrip c s) as [|b r] eqn:Hr.
  - destruct (decide (a = c)); simpl; [done|]. by rewrite bool_decide_eq_false_2.
  - exact IH.
Qed.

Lemma contains_rstrip c d s :
  PyStr.contains d s = false → PyStr.contains d (PyStr.rstrip c s) = false.
Proof.
  induction s as [|a s IH]; [done|].
  cbn [PyStr.rstrip PyStr.contains]. destruct (decide (a = d)) as [|Hne]; [done|].
  intros H. specialize (IH H).
  destruct (PyStr.rstrip c s) as [|b r].
  - destruct (decide (a = c)); simpl; [done|]. by destruct (decide (a = d)).
  - cbn [PyStr.contains]. destruct (decide (a = d)); [done|]. exact IH.
Qed.

Lemma normalize_link_normalized s : normalized (normalize_link s).
Proof.
  split.
  - apply contains_rstrip, contains_split_head.
  - apply endswith_rstrip.
Qed.

Lemma normalize_link_of_normalized s : normalized s → normalize_link s = s.
Proof.
  intros [Hh Hs]. unfold normalize_link.
  rewrite (split_head_no_sep _ _ Hh). by apply rstrip_no_trailing.
Qed.

Lemma normalize_link_idempotent s : normalize_link (normalize_link s) = normalize_link s.
Proof. apply normalize_link_of_normalized, normalize_link_normalized. Qed.

(** C7: the normalization (cut at the first '#', then strip the trailing
    '/' characters) leaves unchanged every string that has no '#' and does
    not end in '/'. *)
Theorem normalize_link_fixpoint (s : string) :
  PyStr.contains "#" s = false →
  PyStr.endswith "/" s = false →
  normalize_link s = s.
Proof.
  intros Hh Hs. unfold normalize_link.
  rewrite (split_head_no_sep "#" s Hh).
  by apply rstrip_no_trailing.
Qed.

Lemma normalize_link_fixpoint_witness :
  PyStr.contains "#" "https://example.com/a" = false ∧
  PyStr.endswith "/" "https://example.com/a" = false ∧
  normalize_link "https://example.com/a" = "https://example.com/a".
Proof.
  split; [reflexivity|]. split; [reflexivity|].
  apply (normalize_link_fixpoint "https://example.com/a"); reflexivity.
Defined.

Example urlsplit_ex1 :
  UrlParse.urlsplit "https://example.com/blog/?p=1#c" =
  UrlParse.mkSplit "https" "example.com" "/blog/" "p=1" "c".
Proof. reflexivity. Qed.

Example urlsplit_ex2 :
  UrlParse.urlsplit "HTTP://Example.com" = UrlParse.mkSplit "http" "Example.com" "" "" "".
Proof. reflexivity. Qed.

Example urlsplit_ex3 :
  UrlParse.urlsplit "/2024/01/post/" = UrlParse.mkSplit "" "" "/2024/01/post/" "" "".
Proof. reflexivity. Qed.

Example urlsplit_ex4 :
  UrlParse.urlsplit "https://ftp://example.com" =
  UrlParse.mkSplit "https" "ftp:" "//example.com" "" "".
Proof. reflexivity. Qed.

Example norm_site_ex1 : norm_site "myblog.wordpress.com" =
  ("https://myblog.wordpress.com", "myblog.wordpress.com").
Proof. reflexivity. Qed.

Example norm_site_ex2 : norm_site "http://example.com/blog/" =
  ("http://example.com", "example.com").
Proof. reflexivity. Qed.

Example norm_site_ex3 : norm_site "ftp://example.com" = ("https://ftp:", "ftp:").
Proof. reflexivity. Qed.


(** ** norm_site *)

Lemma string_app_cons a s t : String a s +:+ t = String a (s +:+ t).
Proof. reflexivity. Qed.

Lemma string_app_nil s : "" +:+ s = s.
Proof. reflexivity. Qed.

Lemma startswith_app p s :
  PyStr.startswith p s = true → s = p +:+ PyStr.slice_from (String.length p) s.
Proof.
  revert s. induction p as [|a p IH]; intros s; [done|].
  destruct s as [|b s]; simpl; [done|].
  destruct (decide (a = b)) as [->|]; [|done].
  intros H. rewrite string_app_cons. f_equal. by apply IH.
Qed.

Lemma urlsplit_http rest :
  UrlParse.urlsplit ("http://" +:+ rest) =
  let '(n, r) := UrlParse.splitnetloc (UrlParse.remove_unsafe rest) in
  let '(u, f) := UrlParse.split_once "#" r in
  let '(u, q) := UrlParse.split_once "?" u in
  UrlParse.mkSplit "http" n u q f.
Proof. reflexivity. Qed.

Lemma urlsplit_https rest :
  UrlParse.urlsplit ("https://" +:+ rest) =
  let '(n, r) := UrlParse.splitnetloc (UrlParse.remove_unsafe rest) in
  let '(u, f) := UrlParse.split_once "#" r in
  let '(u, q) := UrlParse.split_once "?" u in
  UrlParse.mkSplit "https" n u q f.
Proof. reflexivity. Qed.

Lemma urlsplit_http_origin sch rest :
  sch = "http" ∨ sch = "https" →
  UrlParse.scheme (UrlParse.urlsplit (sch +:+ "://" +:+ rest)) = sch ∧
  UrlParse.netloc (UrlParse.urlsplit (sch +:+ "://" +:+ rest)) = host_text rest.
Proof.
  unfold host_text.
  intros [-> | ->];
    [change ("http" +:+ "://" +:+ rest) with ("http://" +:+ rest);
     rewrite (urlsplit_http rest)
    |change ("https" +:+ "://" +:+ rest) with ("https://" +:+ rest);
     rewrite (urlsplit_https rest)];
    destruct (UrlParse.splitnetloc _) as [n r];
    destruct (UrlParse.split_once "#" r) as [u f];
    destruct (UrlParse.split_once "?" u) as [u' q]; done.
Qed.

Example norm_site_ftp :
  UrlParse.urlsplit "ftp://example.com" = UrlParse.mkSplit "ftp" "example.com" "" "" "" ∧
  norm_site "ftp://example.com" = ("https://ftp:", "ftp:").
Proof. split; reflexivity. Qed.


Lemma norm_site_parts (site : string) :
  let '(sch, rest) := site_scheme_rest site in
  norm_site site = (sch +:+ "://" +:+ host_text rest, host_text rest)
  ∧ (sch = "http" ∨ sch = "https").
Proof.
  assert (Hbody : ∀ sch rest, sch = "http" ∨ sch = "https" →
    (let parts := UrlParse.urlsplit (sch +:+ "://" +:+ rest) in
     (UrlParse.scheme parts +:+ "://" +:+ UrlParse.netloc parts, UrlParse.netloc parts))
    = (sch +:+ "://" +:+ host_text rest, host_text rest)).
  { intros sch rest Hs. cbv zeta.
    by destruct (urlsplit_http_origin sch rest Hs) as [-> ->]. }
  unfold site_scheme_rest, norm_site.
  destruct (PyStr.startswith "http://" site) eqn:H1.
  - apply startswith_app in H1. cbn [String.length] in H1.
    remember (PyStr.slice_from 7 site) as rest eqn:Hrest. clear Hrest. subst site.
    cbn [orb negb]. split; [exact (Hbody "http" rest (or_introl eq_refl))|by left].
  - destruct (PyStr.startswith "https://" site) eqn:H2.
    + apply startswith_app in H2. cbn [String.length] in H2.
      remember (PyStr.slice_from 8 site) as rest eqn:Hrest. clear Hrest. subst site.
      cbn [orb negb]. split; [exact (Hbody "https" rest (or_intror eq_refl))|by right].
    + cbn [orb negb]. split; [exact (Hbody "https" site (or_intror eq_refl))|by right].
Qed.



(** ** urlsplit and the normalization *)

Lemma string_app_assoc (a b c : string) : (a +:+ b) +:+ c = a +:+ (b +:+ c).
Proof. induction a as [|x a IH]; [done|]. by rewrite !string_app_cons, IH. Qed.

Lemma string_app_nil_r (a : string) : a +:+ "" = a.
Proof. induction a as [|x a IH]; [done|]. by rewrite string_app_cons, IH. Qed.

Lemma contains_app c a b :
  PyStr.contains c (a +:+ b) = PyStr.contains c a || PyStr.contains c b.
Proof.
  induction a as [|x a IH]; [done|]. rewrite string_app_cons. cbn [PyStr.contains].
  by destruct (decide (x = c)).
Qed.

Lemma split_head_app c a b :
  PyStr.split_head c (a +:+ b) =
  if PyStr.contains c a then PyStr.split_head c a else a +:+ PyStr.split_head c b.
Proof.
  induction a as [|x a IH]; [done|].
  rewrite string_app_cons. cbn [PyStr.split_head PyStr.contains].
  destruct (decide (x = c)); [done|]. rewrite IH.
  destruct (PyStr.contains c a); [done|]. by rewrite string_app_cons.
Qed.

Lemma after_first_app c a b :
  UrlParse.after_first c (a +:+ b) =
  if PyStr.contains c a then UrlParse.after_first c a +:+ b else UrlParse.after_first c b.
Proof.
  induction a as [|x a IH]; [done|].
  rewrite string_app_cons. cbn [UrlParse.after_first PyStr.contains].
  by destruct (decide (x = c)).
Qed.

Lemma all_chars_app p a b :
  UrlParse.all_chars p (a +:+ b) = UrlParse.all_chars p a && UrlParse.all_chars p b.
Proof.
  induction a as [|x a IH]; [done|]. rewrite string_app_cons. cbn [UrlParse.all_chars].
  rewrite IH. by destruct (p x).
Qed.

Lemma split_head_decomp c s :
  s = PyStr.split_head c s +:+
      (if PyStr.contains c s then String c (UrlParse.after_first c s) else "").
Proof.
  induction s as [|x s IH]; [done|]. cbn [PyStr.split_head PyStr.contains UrlParse.after_first].
  destruct (decide (x = c)) as [->|]; [done|]. rewrite string_app_cons. by f_equal.
Qed.

Lemma slashes_snoc n : slashes (S n) = slashes n +:+ "/".
Proof.
  induction n as [|n IH]; [done|].
  cbn [slashes] in *. rewrite string_app_cons. by f_equal.
Qed.

Lemma rstrip_decomp s : ∃ n, s = PyStr.rstrip "/" s +:+ slashes n.
Proof.
  induction s as [|x s [n IH]]; [by exists 0%nat|].
  cbn [PyStr.rstrip]. destruct (PyStr.rstrip "/" s) as [|y r] eqn:Hr.
  - destruct (decide (x = "/"%char)) as [->|].
    + exists (S n). rewrite string_app_nil in *. cbn [slashes]. by f_equal.
    + exists n. rewrite string_app_cons. by f_equal.
  - exists n. rewrite string_app_cons. by f_equal.
Qed.

Lemma urlsplit_origin url : url_origin url = origin_of (prepare url).
Proof.
  unfold url_origin, origin_of, prepare, UrlParse.urlsplit.
  destruct (UrlParse.split_scheme _) as [sc r]. cbn [fst snd].
  destruct (UrlParse.split_netloc r) as [n r'].
  destruct (UrlParse.split_once "#" r') as [u f].
  by destruct (UrlParse.split_once "?" u) as [u' q].
Qed.

Lemma lstrip_c0_app a d z :
  UrlParse.c0_or_space d = false →
  UrlParse.lstrip_c0 (a +:+ String d z) = UrlParse.lstrip_c0 a +:+ String d z.
Proof.
  intros Hd. induction a as [|x a IH].
  - rewrite !string_app_nil. cbn [UrlParse.lstrip_c0]. by rewrite Hd.
  - rewrite string_app_cons. cbn [UrlParse.lstrip_c0].
    destruct (UrlParse.c0_or_space x); [done|]. by rewrite string_app_cons.
Qed.

Lemma remove_unsafe_app a b :
  UrlParse.remove_unsafe (a +:+ b) = UrlParse.remove_unsafe a +:+ UrlParse.remove_unsafe b.
Proof.
  induction a as [|x a IH]; [done|]. rewrite string_app_cons. cbn [UrlParse.remove_unsafe].
  destruct (UrlParse.unsafe x); [done|]. by rewrite string_app_cons, IH.
Qed.

Lemma prepare_app_suffix a t :
  origin_suffix t → ∃ t', origin_suffix t' ∧ prepare (a +:+ t) = prepare a +:+ t'.
Proof.
  intros [z|]; unfold prepare.
  - exists (String "#" (UrlParse.remove_unsafe z)). split; [constructor|].
    by rewrite lstrip_c0_app, remove_unsafe_app.
  - exists "/". split; [constructor|]. by rewrite lstrip_c0_app, remove_unsafe_app.
Qed.

Lemma split_scheme_app y t :
  origin_suffix t →
  UrlParse.split_scheme (y +:+ t) =
  ((UrlParse.split_scheme y).1, (UrlParse.split_scheme y).2 +:+ t).
Proof.
  intros Ht. unfold UrlParse.split_scheme.
  rewrite contains_app, split_head_app, after_first_app.
  destruct (PyStr.contains ":" y) eqn:Hy; cbn [orb andb].
  - by destruct (_ && _ && _).
  - assert (PyStr.contains ":" t
            && PyStr.truthy (y +:+ PyStr.split_head ":" t)
            && match y +:+ PyStr.split_head ":" t with
               | String a _ => UrlParse.is_alpha a
               | EmptyString => false
               end
            && UrlParse.all_chars UrlParse.scheme_char (y +:+ PyStr.split_head ":" t)
            = false) as ->; [|done].
    destruct Ht as [z|]; [|done].
    rewrite all_chars_app. cbn. by rewrite !andb_false_r.
Qed.

Lemma splitnetloc_app w d z :
  UrlParse.netloc_delim d = true →
  (UrlParse.splitnetloc (w +:+ String d z)).1 = (UrlParse.splitnetloc w).1.
Proof.
  intros Hd. induction w as [|x w IH].
  - rewrite string_app_nil. cbn [UrlParse.splitnetloc]. by rewrite Hd.
  - rewrite string_app_cons. cbn [UrlParse.splitnetloc].
    destruct (UrlParse.netloc_delim x); [done|].
    destruct (UrlParse.splitnetloc (w +:+ String d z)) as [n r].
    destruct (UrlParse.splitnetloc w) as [n' r']. cbn [fst] in *. by subst.
Qed.

Lemma split_netloc_app r t :
  origin_suffix t →
  (UrlParse.split_netloc (r +:+ t)).1 = (UrlParse.split_netloc r).1.
Proof.
  intros Ht. unfold UrlParse.split_netloc.
  destruct r as [|a [|b r]].
  - rewrite string_app_nil. by destruct Ht.
  - rewrite string_app_cons, string_app_nil. cbn [PyStr.startswith].
    destruct Ht as [z|].
    + destruct (decide ("/"%char = a)); [|done]. done.
    + destruct (decide ("/"%char = a)); done.
  - rewrite !string_app_cons. cbn [PyStr.startswith PyStr.slice_from].
    destruct (decide ("/"%char = a)); [|done].
    destruct (decide ("/"%char = b)); [|done].
    destruct Ht; by apply splitnetloc_app.
Qed.

Lemma origin_of_app y t : origin_suffix t → origin_of (y +:+ t) = origin_of y.
Proof.
  intros Ht. unfold origin_of. rewrite (split_scheme_app y t Ht). cbn [fst snd].
  by rewrite (split_netloc_app _ t Ht).
Qed.

Lemma url_origin_app a t : origin_suffix t → url_origin (a +:+ t) = url_origin a.
Proof.
  intros Ht. rewrite !urlsplit_origin.
  destruct (prepare_app_suffix a t Ht) as (t' & Ht' & ->). by apply origin_of_app.
Qed.

Lemma url_origin_slashes a n : url_origin (a +:+ slashes n) = url_origin a.
Proof.
  induction n as [|n IH]; [by rewrite string_app_nil_r|].
  rewrite slashes_snoc, <- string_app_assoc.
  rewrite url_origin_app; [done|constructor].
Qed.

(** Cutting the fragment and the trailing slashes leaves the scheme and
    the network location as they were. *)
Lemma url_origin_normalize_link href : url_origin (normalize_link href) = url_origin href.
Proof.
  unfold normalize_link.
  destruct (rstrip_decomp (PyStr.split_head "#" href)) as [n Hn].
  rewrite <- (url_origin_slashes _ n), <- Hn.
  rewrite (split_head_decomp "#" href) at 2.
  destruct (PyStr.contains "#" href).
  - rewrite url_origin_app; [done|constructor].
  - by rewrite string_app_nil_r.
Qed.

(** *** The origin test *)

Lemma scheme_char_lower_not_colon a :
  UrlParse.scheme_char a = true → UrlParse.lower_char a ≠ ":"%char.
Proof. destruct a as [[] [] [] [] [] [] [] []]; vm_compute; congruence. Qed.

Lemma lower_no_colon pre :
  UrlParse.all_chars UrlParse.scheme_char pre = true →
  PyStr.contains ":" (UrlParse.lower pre) = false.
Proof.
  induction pre as [|a pre IH]; [done|]. cbn [UrlParse.all_chars UrlParse.lower PyStr.contains].
  intros [Ha Hpre]%andb_true_iff.
  destruct (decide (UrlParse.lower_char a = ":"%char)) as [He|_]; [|by apply IH].
  by apply scheme_char_lower_not_colon in He.
Qed.

Lemma split_scheme_no_colon url : PyStr.contains ":" (UrlParse.split_scheme url).1 = false.
Proof.
  unfold UrlParse.split_scheme.
  destruct (UrlParse.all_chars UrlParse.scheme_char (PyStr.split_head ":" url)) eqn:Hall.
  - destruct (_ && _ && _); cbn [andb fst]; [|done]. by apply lower_no_colon.
  - by rewrite andb_false_r.
Qed.

Lemma splitnetloc_no_delim w d :
  UrlParse.netloc_delim d = true → PyStr.contains d (UrlParse.splitnetloc w).1 = false.
Proof.
  intros Hd. induction w as [|x w IH]; [done|]. cbn [UrlParse.splitnetloc].
  destruct (UrlParse.netloc_delim x) eqn:Hx; [done|].
  destruct (UrlParse.splitnetloc w) as [n r]. cbn [fst PyStr.contains] in *.
  destruct (decide (x = d)) as [->|]; [congruence|done].
Qed.

Lemma split_netloc_no_slash r : PyStr.contains "/" (UrlParse.split_netloc r).1 = false.
Proof.
  unfold UrlParse.split_netloc. destruct (PyStr.startswith "//" r); [|done].
  by apply splitnetloc_no_delim.
Qed.

Lemma url_origin_wf url :
  PyStr.contains ":" (url_origin url).1 = false
  ∧ PyStr.contains "/" (url_origin url).2 = false.
Proof.
  rewrite urlsplit_origin. unfold origin_of. cbn [fst snd].
  split; [apply split_scheme_no_colon|apply split_netloc_no_slash].
Qed.

Lemma rstrip_nonempty_cons c a s : a ≠ c → PyStr.rstrip c (String a s) = String a (PyStr.rstrip c s).
Proof.
  intros Hne. cbn [PyStr.rstrip]. destruct (PyStr.rstrip c s); [|done].
  by destruct (decide (a = c)).
Qed.

Lemma rstrip_app_nonempty c a b :
  PyStr.rstrip c b ≠ "" → PyStr.rstrip c (a +:+ b) = a +:+ PyStr.rstrip c b.
Proof.
  intros Hb. induction a as [|x a IH]; [done|].
  rewrite !string_app_cons. cbn [PyStr.rstrip]. rewrite IH.
  destruct (a +:+ PyStr.rstrip c b) eqn:Hab; [|done].
  destruct a; [|done]. by rewrite string_app_nil in Hab.
Qed.

Lemma endswith_no_contains c s : PyStr.contains c s = false → PyStr.endswith c s = false.
Proof.
  induction s as [|a s IH]; [done|]. cbn [PyStr.contains PyStr.endswith].
  destruct (decide (a = c)) as [|Hne]; [done|]. intros H.
  destruct s; [by apply bool_decide_eq_false_2|]. by apply IH.
Qed.

(** The origin string after [rstrip("/")]: the slashes of "://" go when
    the network location is empty. *)
Lemma rstrip_origin sch n :
  PyStr.contains "/" n = false →
  PyStr.rstrip "/" (sch +:+ "://" +:+ n) =
  sch +:+ String ":" (match n with EmptyString => "" | _ => "//" +:+ n end).
Proof.
  intros Hn.
  change (sch +:+ "://" +:+ n) with (sch +:+ String ":" ("//" +:+ n)).
  assert (PyStr.rstrip "/" ("//" +:+ n) = match n with EmptyString => "" | _ => "//" +:+ n end)
    as Hr.
  { destruct n as [|a n]; [done|].
    apply rstrip_no_trailing. rewrite !string_app_cons, string_app_nil.
    change (PyStr.endswith "/" (String a n) = false). by apply endswith_no_contains. }
  rewrite rstrip_app_nonempty.
  - rewrite rstrip_nonempty_cons; [|done]. by rewrite Hr.
  - by rewrite rstrip_nonempty_cons.
Qed.

Lemma origin_string_inj s1 n1 s2 n2 :
  PyStr.contains ":" s1 = false → PyStr.contains ":" s2 = false →
  PyStr.contains "/" n1 = false → PyStr.contains "/" n2 = false →
  PyStr.rstrip "/" (s1 +:+ "://" +:+ n1) = PyStr.rstrip "/" (s2 +:+ "://" +:+ n2) →
  s1 = s2 ∧ n1 = n2.
Proof.
  intros Hs1 Hs2 Hn1 Hn2. rewrite !rstrip_origin by done. intros Heq.
  assert (s1 = s2) as ->.
  { apply (f_equal (PyStr.split_head ":")) in Heq.
    rewrite !split_head_app, Hs1, Hs2 in Heq. cbn [PyStr.split_head] in Heq.
    destruct (decide (":"%char = ":"%char)); [|done].
    by rewrite !string_app_nil_r in Heq. }
  split; [done|].
  apply (f_equal (UrlParse.after_first ":")) in Heq.
  rewrite !after_first_app, Hs2 in Heq. cbn [UrlParse.after_first] in Heq.
  destruct (decide (":"%char = ":"%char)); [|done].
  destruct n1, n2; try done. by injection Heq as -> ->.
Qed.

(** *** The base URL of a site *)

Lemma remove_unsafe_clean r :
  UrlParse.all_chars (λ a, negb (UrlParse.unsafe a)) (UrlParse.remove_unsafe r) = true.
Proof.
  induction r as [|a r IH]; [done|]. cbn [UrlParse.remove_unsafe].
  destruct (UrlParse.unsafe a) eqn:Ha; [done|]. cbn [UrlParse.all_chars]. by rewrite Ha.
Qed.

Lemma remove_unsafe_id x :
  UrlParse.all_chars (λ a, negb (UrlParse.unsafe a)) x = true → UrlParse.remove_unsafe x = x.
Proof.
  induction x as [|a x IH]; [done|]. cbn [UrlParse.all_chars UrlParse.remove_unsafe].
  intros [Ha Hx]%andb_true_iff. apply negb_true_iff in Ha. rewrite Ha. by rewrite IH.
Qed.

Lemma splitnetloc_all p w :
  UrlParse.all_chars p w = true → UrlParse.all_chars p (UrlParse.splitnetloc w).1 = true.
Proof.
  induction w as [|a w IH]; [done|]. cbn [UrlParse.all_chars UrlParse.splitnetloc].
  intros [Ha Hw]%andb_true_iff. destruct (UrlParse.netloc_delim a); [done|].
  specialize (IH Hw). destruct (UrlParse.splitnetloc w) as [n r].
  cbn [fst UrlParse.all_chars] in *. by rewrite Ha, IH.
Qed.

Lemma splitnetloc_idem w :
  (UrlParse.splitnetloc (UrlParse.splitnetloc w).1).1 = (UrlParse.splitnetloc w).1.
Proof.
  induction w as [|a w IH]; [done|]. cbn [UrlParse.splitnetloc].
  destruct (UrlParse.netloc_delim a) eqn:Ha; [done|].
  destruct (UrlParse.splitnetloc w) as [n r]. cbn [fst UrlParse.splitnetloc] in *.
  rewrite Ha. destruct (UrlParse.splitnetloc n) as [n' r']. cbn [fst] in *. by subst.
Qed.

Lemma host_text_idem rest : host_text (host_text rest) = host_text rest.
Proof.
  unfold host_text. rewrite remove_unsafe_id; [apply splitnetloc_idem|].
  apply splitnetloc_all, remove_unsafe_clean.
Qed.

Lemma norm_site_origin site :
  ∃ sch host,
    norm_site site = (sch +:+ "://" +:+ host, host)
    ∧ url_origin (sch +:+ "://" +:+ host) = (sch, host)
    ∧ PyStr.contains ":" sch = false
    ∧ PyStr.contains "/" host = false.
Proof.
  pose proof (norm_site_parts site) as H.
  destruct (site_scheme_rest site) as [sch rest]. destruct H as (Hn & Hs).
  exists sch, (host_text rest). split; [done|].
  destruct (urlsplit_http_origin sch (host_text rest) Hs) as [H1 H2].
  split_and!.
  - unfold url_origin. by rewrite H1, H2, host_text_idem.
  - by destruct Hs as [-> | ->].
  - by apply splitnetloc_no_delim.
Qed.

(** An href that passes the test of extract_links against the base URL
    of a site has the scheme and the network location of that base URL. *)
Lemma same_origin_norm_site site href :
  same_origin (norm_site site).1 href = true →
  url_origin href = url_origin (norm_site site).1.
Proof.
  destruct (norm_site_origin site) as (sch & host & -> & Ho & Hs & Hh). cbn [fst].
  unfold same_origin. cbv zeta. rewrite bool_decide_eq_true. intros Heq.
  destruct (url_origin_wf href) as [Hus Hun].
  destruct (origin_string_inj _ _ _ _ Hus Hs Hun Hh Heq) as [H1 H2].
  rewrite Ho. unfold url_origin in *. cbn [fst snd] in *. by rewrite H1, H2.
Qed.

(** ** Sorting a link set *)

Lemma elem_of_sorted (s : gset string) x : x ∈ sorted s ↔ x ∈ s.
Proof. unfold sorted. by rewrite merge_sort_Permutation, elem_of_elements. Qed.

Lemma NoDup_sorted (s : gset string) : NoDup (sorted s).
Proof. unfold sorted. rewrite merge_sort_Permutation. apply NoDup_elements. Qed.

Lemma StronglySorted_sorted (s : gset string) : StronglySorted String.le (sorted s).
Proof. unfold sorted. apply (StronglySorted_merge_sort _). Qed.

Lemma sorted_list_to_set (ls : list string) :
  sorted (list_to_set (normalize_link <$> ls)) = sorted_unique_links ls.
Proof.
  apply (StronglySorted_unique String.le).
  - apply StronglySorted_sorted.
  - apply (StronglySorted_merge_sort _).
  - unfold sorted, sorted_unique_links. rewrite !merge_sort_Permutation.
    apply NoDup_Permutation.
    + apply NoDup_elements.
    + apply NoDup_remove_dups.
    + intros x. by rewrite elem_of_elements, elem_of_list_to_set, elem_of_remove_dups.
Qed.

Lemma link_set_elem posts s x :
  link_set posts = inr s → x ∈ s →
  ∃ p l, p ∈ posts ∧ getitem p "link" = inr (JStr l) ∧ x = normalize_link l.
Proof.
  revert s. induction posts as [|p posts IH]; intros s; cbn [link_set].
  - intros [= <-] Hx. by apply not_elem_of_empty in Hx.
  - destruct (getitem p "link") as [e|v] eqn:Hget; [done|].
    destruct v as [| | |l| |]; cbn [split_rstrip]; try done.
    destruct (link_set posts) as [e|s'] eqn:Hls; [done|].
    intros [= <-] Hx. apply elem_of_union in Hx as [Hx|Hx].
    + apply elem_of_singleton in Hx. exists p, l. split; [apply list_elem_of_here|done].
    + destruct (IH s' eq_refl Hx) as (p' & l' & Hp & Hg & ->).
      exists p', l'. split; [by apply list_elem_of_further|done].
Qed.

Lemma link_set_links posts ls :
  Forall2 (λ p l, getitem p "link" = inr (JStr l)) posts ls →
  link_set posts = inr (list_to_set (normalize_link <$> ls)).
Proof.
  induction 1 as [|p l posts ls Hp _ IH]; [done|].
  cbn [link_set]. rewrite Hp. cbn [split_rstrip]. by rewrite IH.
Qed.

(** ** The REST clients *)

Section HarvesterFacts.

Variable net : request → exn + response.
Variable soup_select : string → string → list (option string).
Variable urljoin : string → string → string.
Variable str_exn : exn → string.

Lemma bind_val {A B} (f : A → M B) (a : A) (t : list event) :
  mbind f ((Val a, t) : M A) = ((f a).1, t ++ (f a).2).
Proof. unfold mbind, M_bind. by destruct (f a). Qed.

Lemma bind_raise {A B} (f : A → M B) (e : exn) (t : list event) :
  mbind f ((Raise e, t) : M A) = (Raise e, t).
Proof. reflexivity. Qed.

Lemma bind_diverge {A B} (f : A → M B) (t : list event) :
  mbind f ((Diverge, t) : M A) = (Diverge, t).
Proof. reflexivity. Qed.

Lemma bind_ret {A B} (f : A → M B) (a : A) : mbind f (mret a) = f a.
Proof. unfold mret, M_ret. rewrite bind_val. by destruct (f a). Qed.

Ltac mstep :=
  repeat first
    [ rewrite bind_ret | rewrite bind_val | rewrite bind_raise | rewrite bind_diverge ];
  cbn [fst snd].

Lemma wpcom_loop_round fuel hostname posts page :
  wpcom_loop net (S fuel) hostname posts page =
  rest_round net wpcom_quiet (mkRequest (wpcom_url hostname) (rest_params page)) posts
    (λ posts', wpcom_loop net fuel hostname posts' (page + 1)).
Proof.
  cbn [wpcom_loop]. unfold rest_round, requests_get, wpcom_quiet.
  cbv zeta. destruct (net _) as [e|r]; cbv beta iota; [done|].
  mstep.
  destruct (status_code r =? 404)%Z; [done|].
  destruct (status_code r =? 401)%Z; [done|]. cbn [orb].
  unfold raise_for_status.
  destruct (is_error_status (status_code r)); [done|].
  mstep. unfold response_json.
  destruct (json_body r) as [batch|]; [|done].
  mstep.
  destruct (json_truthy batch); cbn [negb]; [|done].
  destruct (json_iter batch) as [e|items]; [done|].
  cbn [lift_exn]. mstep. unfold sleep, emit. mstep. done.
Qed.

Lemma site_rest_loop_round fuel base_url posts page :
  site_rest_loop net (S fuel) base_url posts page =
  rest_round net site_rest_quiet (mkRequest (site_rest_url base_url) (rest_params page)) posts
    (λ posts', site_rest_loop net fuel base_url posts' (page + 1)).
Proof.
  cbn [site_rest_loop]. unfold rest_round, requests_get, site_rest_quiet.
  cbv zeta. destruct (net _) as [e|r]; cbv beta iota; [done|].
  mstep.
  destruct (bool_decide _); [done|].
  unfold raise_for_status.
  destruct (is_error_status (status_code r)); [done|].
  mstep. unfold response_json.
  destruct (json_body r) as [batch|]; [|done].
  mstep.
  destruct (json_truthy batch); cbn [negb]; [|done].
  destruct (json_iter batch) as [e|items]; [done|].
  cbn [lift_exn]. mstep. unfold sleep, emit. mstep. done.
Qed.


Lemma rest_round_error quiet rq r posts fuel_next :
  net rq = inr r →
  quiet (status_code r) = false →
  is_error_status (status_code r) = true →
  rest_round net quiet rq posts fuel_next = (Raise (HTTPError (status_code r)), [EvGet rq]).
Proof. intros Hnet Hq He. unfold rest_round. by rewrite Hnet, Hq, He. Qed.

Lemma rest_round_empty_batch quiet rq r batch posts fuel_next :
  net rq = inr r →
  quiet (status_code r) = false →
  is_error_status (status_code r) = false →
  json_body r = Some batch → json_truthy batch = false →
  rest_round net quiet rq posts fuel_next = (Val posts, [EvGet rq]).
Proof. intros Hnet Hq He Hb Ht. unfold rest_round. by rewrite Hnet, Hq, He, Hb, Ht. Qed.

Lemma wpcom_quiet_iff s : wpcom_quiet s = true ↔ s = 404%Z ∨ s = 401%Z.
Proof. unfold wpcom_quiet. rewrite orb_true_iff, !Z.eqb_eq. done. Qed.

Lemma site_rest_quiet_iff s :
  site_rest_quiet s = true ↔ s = 404%Z ∨ s = 401%Z ∨ s = 403%Z.
Proof.
  unfold site_rest_quiet. rewrite bool_decide_eq_true.
  rewrite !elem_of_cons, elem_of_nil. tauto.
Qed.

(** ** The archive scraper *)

Abbreviation page_url1 base_url page := (base_url +:+ "/page/" +:+ PyStr.of_Z page +:+ "/").
Abbreviation page_url2 base_url page := (base_url +:+ "/?paged=" +:+ PyStr.of_Z page).

Lemma extract_candidate_eq base_url links c :
  extract_candidate urljoin base_url links c =
  match c with
  | Some href =>
      if PyStr.truthy href && same_origin base_url (absolute_href urljoin base_url href)
      then {[ normalize_link (absolute_href urljoin base_url href) ]} ∪ links
      else links
  | None => links
  end.
Proof.
  destruct c as [href|]; [|done]. unfold extract_candidate, absolute_href, same_origin.
  destruct (PyStr.truthy href); cbn [negb andb]; [|done].
  destruct (PyStr.truthy (UrlParse.scheme (UrlParse.urlsplit href))); cbn [negb];
    by destruct (bool_decide _).
Qed.

Lemma scrape_page_round base_url links page :
  scrape_page net soup_select urljoin base_url links page =
  let rq1 := mkRequest (page_url1 base_url page) [] in
  let rq2 := mkRequest (page_url2 base_url page) [] in
  match net rq1 with
  | inl e => (Raise e, [EvGet rq1])
  | inr r1 =>
      let lg := extract_page soup_select urljoin base_url r1 links in
      if lg.2 then (Val lg, [EvGet rq1])
      else match net rq2 with
           | inl e => (Raise e, [EvGet rq1; EvGet rq2])
           | inr r2 =>
               (Val (extract_page soup_select urljoin base_url r2 lg.1),
                [EvGet rq1; EvGet rq2])
           end
  end.
Proof.
  unfold scrape_page, requests_get. cbv zeta.
  destruct (net (mkRequest (page_url1 base_url page) [])) as [e|r1]; cbv beta iota;
    [reflexivity|]. mstep.
  destruct (extract_page soup_select urljoin base_url r1 links) as [l1 g1].
  cbn [fst snd]. destruct g1; cbn [negb]; [reflexivity|].
  destruct (net _) as [e|r2]; cbv beta iota; [reflexivity|]. mstep. reflexivity.
Qed.

Lemma scrape_page_outcome base_url links page :
  (∃ lg t, scrape_page net soup_select urljoin base_url links page = (Val lg, t)
           ∧ sleeps t = 0%nat)
  ∨ (∃ e t, scrape_page net soup_select urljoin base_url links page = (Raise e, t)
            ∧ sleeps t = 0%nat).
Proof.
  rewrite scrape_page_round. cbv zeta.
  destruct (net (mkRequest (page_url1 base_url page) [])) as [e|r1];
    [right; by eexists _, _|].
  destruct (extract_page _ _ _ r1 links).2; [left; by eexists _, _|].
  destruct (net _) as [e|r2]; [right; by eexists _, _|left; by eexists _, _].
Qed.

Lemma scrape_loop_round fuel base_url max_empty links empty_streak page :
  scrape_loop net soup_select urljoin (S fuel) base_url max_empty links empty_streak page =
  if (empty_streak <? max_empty)%Z then
    match scrape_page net soup_select urljoin base_url links page with
    | (Val (links', got_any), t) =>
        let empty_streak' := (if got_any then 0 else empty_streak + 1)%Z in
        if (2000 <? page + 1)%Z
        then (Val (links', empty_streak', page + 1)%Z, t ++ [EvSleep])
        else
          let m := scrape_loop net soup_select urljoin fuel base_url max_empty
                     links' empty_streak' (page + 1)%Z in
          (m.1, t ++ EvSleep :: m.2)
    | (Raise e, t) => (Raise e, t)
    | (Exit c, t) => (Exit c, t)
    | (Diverge, t) => (Diverge, t)
    end
  else (Val (links, empty_streak, page), []).
Proof.
  cbn [scrape_loop]. destruct (empty_streak <? max_empty)%Z; [|done].
  destruct (scrape_page _ _ _ _ _ _) as [[[l g]|e|c|] t]; try done.
  mstep. unfold sleep, emit. mstep.
  destruct (2000 <? page + 1)%Z; [done|]. cbn. done.
Qed.

(** An invariant of the link set: what holds of the links at the start of
    the scrape and is kept by adding the normal form of a same-origin href
    holds of the links at the end. *)
Section LinkInvariant.

Variable base_url : string.
Variable I : gset string → Prop.
Hypothesis I_add : ∀ links href,
  I links → same_origin base_url href = true → I ({[ normalize_link href ]} ∪ links).

Lemma extract_candidate_inv links c :
  I links → I (extract_candidate urljoin base_url links c).
Proof.
  intros HI. rewrite extract_candidate_eq. destruct c as [href|]; [|done].
  destruct (PyStr.truthy href); cbn [andb]; [|done].
  destruct (same_origin _ _) eqn:Ho; [|done]. by apply I_add.
Qed.

Lemma extract_links_inv html links :
  I links → I (extract_links soup_select urljoin base_url html links).
Proof.
  unfold extract_links. generalize (soup_select html "a[rel=bookmark]" ++
    soup_select html "h1.entry-title a, h2.entry-title a, h3.entry-title a" ++
    soup_select html "article a.permalink, article a.more-link").
  intros cs. revert links. induction cs as [|c cs IH]; intros links HI; [done|].
  cbn [foldl]. by apply IH, extract_candidate_inv.
Qed.

Lemma extract_page_inv r links :
  I links → I (extract_page soup_select urljoin base_url r links).1.
Proof.
  intros HI. unfold extract_page. destruct (ok r && PyStr.truthy (text r)); [|done].
  cbn [fst]. by apply extract_links_inv.
Qed.

Lemma scrape_page_inv links page lg t :
  I links →
  scrape_page net soup_select urljoin base_url links page = (Val lg, t) → I lg.1.
Proof.
  intros HI. rewrite scrape_page_round. cbv zeta.
  destruct (net (mkRequest (page_url1 base_url page) [])) as [e|r1]; [done|].
  pose proof (extract_page_inv r1 links HI) as H1.
  destruct (extract_page _ _ _ r1 links) as [l1 g1]. cbn [fst snd] in *.
  destruct g1; [by intros [= <- _]|].
  destruct (net _) as [e|r2]; [done|]. intros [= <- _]. by apply extract_page_inv.
Qed.

Lemma scrape_loop_inv fuel max_empty links empty_streak page st t :
  I links →
  scrape_loop net soup_select urljoin fuel base_url max_empty links empty_streak page
  = (Val st, t) → I st.1.1.
Proof.
  revert links empty_streak page st t.
  induction fuel as [|fuel IH]; intros links s p st t HI.
  - cbn [scrape_loop]. destruct (s <? max_empty)%Z; [done|]. by intros [= <- _].
  - rewrite scrape_loop_round. destruct (s <? max_empty)%Z; [|by intros [= <- _]].
    destruct (scrape_page _ _ _ _ _ _) as [[[l g]|e|c|] t1] eqn:Hp; try done.
    pose proof (scrape_page_inv _ _ _ _ HI Hp) as Hl. cbn [fst] in Hl.
    cbv zeta. destruct (2000 <? p + 1)%Z; [by intros [= <- _]|].
    destruct (scrape_loop _ _ _ fuel _ _ _ _ _) as [o t2] eqn:Hrec. cbn [fst snd].
    intros [= -> _]. by eapply IH.
Qed.

Lemma scrape_inv fuel max_empty L :
  I ∅ →
  out (scrape_posts_from_paged_lists net soup_select urljoin fuel base_url max_empty) = Val L →
  ∃ links, I links ∧ L = sorted links.
Proof.
  intros H0. unfold scrape_posts_from_paged_lists, requests_get. cbv zeta.
  destruct (net _) as [e|r]; cbv beta iota; [done|]. mstep.
  set (links0 := if ok r then _ else _).
  assert (I links0) as HI0.
  { unfold links0. destruct (ok r); [|done]. by apply extract_links_inv. }
  destruct (scrape_loop _ _ _ fuel _ _ links0 _ _) as [[[[l s] p]|e|c|] t] eqn:Hloop;
    try done.
  mstep. unfold out. cbn [fst]. intros [= <-]. exists l. split; [|done].
  by apply (scrape_loop_inv _ _ _ _ _ _ _ HI0 Hloop).
Qed.

End LinkInvariant.

Lemma scrape_links_scraped fuel base_url max_empty L x :
  out (scrape_posts_from_paged_lists net soup_select urljoin fuel base_url max_empty) = Val L →
  x ∈ L → scraped_link base_url x.
Proof.
  intros HL Hx.
  destruct (scrape_inv base_url (λ links, ∀ y, y ∈ links → scraped_link base_url y))
    with (fuel := fuel) (max_empty := max_empty) (L := L) as (links & HI & ->); [| |done|].
  - intros links href HI Ho y Hy. apply elem_of_union in Hy as [Hy|Hy]; [|by apply HI].
    apply elem_of_singleton in Hy as ->. by exists href.
  - intros y Hy. by apply not_elem_of_empty in Hy.
  - apply HI. by apply elem_of_sorted.
Qed.

(** *** The pagination loop *)

Lemma streak_from_snoc s flags g :
  streak_from s (flags ++ [g]) = (if g then 0 else streak_from s flags + 1)%Z.
Proof. unfold streak_from. by rewrite foldl_app. Qed.

Lemma streak_from_0_trailing flags :
  streak_from 0 flags = Z.of_nat (trailing_misses flags).
Proof.
  induction flags as [|g flags IH] using rev_ind; [done|].
  rewrite streak_from_snoc. unfold trailing_misses. rewrite reverse_app. cbn.
  destruct g; [done|]. fold (trailing_misses flags). rewrite IH. lia.
Qed.

Lemma sleeps_app t1 t2 : sleeps (t1 ++ t2) = (sleeps t1 + sleeps t2)%nat.
Proof.
  induction t1 as [|e t1 IH]; [done|]. destruct e; cbn; by rewrite ?IH.
Qed.

Lemma scrape_loop_run base_url max_empty fuel links s p :
  (1 ≤ fuel)%nat → (2001 - p ≤ Z.of_nat fuel)%Z →
  let run := scrape_loop net soup_select urljoin fuel base_url max_empty links s p in
  let flags := page_flags net soup_select urljoin fuel base_url max_empty links s p in
  out run ≠ Diverge
  ∧ sleeps (trace run) = length flags
  ∧ (Z.of_nat (length flags) ≤ Z.max 1 (2001 - p))%Z
  ∧ (∀ k, (k < length flags)%nat → (streak_from s (take k flags) < max_empty)%Z)
  ∧ (∀ l s' p', out run = Val (l, s', p') →
       s' = streak_from s flags ∧ p' = (p + Z.of_nat (length flags))%Z
       ∧ (max_empty ≤ s' ∨ 2000 < p')%Z).
Proof.
  revert links s p. induction fuel as [|fuel IH]; intros links s p Hf1 Hf2; [lia|].
  cbv zeta. rewrite scrape_loop_round. cbn [page_flags].
  destruct (s <? max_empty)%Z eqn:Hsm.
  2:{ apply Z.ltb_ge in Hsm. unfold out, trace. cbn [fst snd length take].
      split_and!; [done|done|lia| |].
      - intros k Hk. lia.
      - intros l s' p' [= _ <- <-]. cbn. split_and!; [done|lia|lia]. }
  apply Z.ltb_lt in Hsm.
  destruct (scrape_page_outcome base_url links p)
    as [([l g] & t & -> & Ht)|(e & t & -> & Ht)].
  2:{ unfold out, trace. cbn [fst snd length].
      split_and!; [done|done|lia| |done]. intros k Hk. lia. }
  cbv zeta. destruct (2000 <? p + 1)%Z eqn:Hp.
  - apply Z.ltb_lt in Hp. unfold out, trace. cbn [fst snd length].
    rewrite sleeps_app, Ht. cbn [sleeps].
    split_and!; [done|done|lia| |].
    + intros k Hk. assert (k = 0%nat) as -> by lia. done.
    + intros l' s' p' [= _ <- <-]. cbn. split_and!; [done|lia|lia].
  - apply Z.ltb_ge in Hp.
    destruct (IH l (if g then 0 else s + 1)%Z (p + 1)%Z) as (H1 & H2 & H3 & H4 & H5);
      [lia|lia|].
    unfold out, trace in *. cbn [fst snd length].
    rewrite sleeps_app, Ht. cbn [sleeps]. rewrite H2.
    split_and!; [done|done|lia| |].
    + intros [|k] Hk; [done|]. cbn [take]. apply H4. cbn [length] in Hk. lia.
    + intros l' s' p' Hout. destruct (H5 l' s' p' Hout) as (-> & -> & Hex).
      split_and!; [done|lia|done].
Qed.

Lemma scrape_loop_fuel base_url max_empty fuel fuel' links s p :
  (1 ≤ fuel)%nat → (2001 - p ≤ Z.of_nat fuel)%Z → (fuel ≤ fuel')%nat →
  scrape_loop net soup_select urljoin fuel' base_url max_empty links s p
  = scrape_loop net soup_select urljoin fuel base_url max_empty links s p.
Proof.
  revert fuel' links s p. induction fuel as [|fuel IH]; intros fuel' links s p Hf1 Hf2 Hle;
    [lia|].
  destruct fuel' as [|fuel']; [lia|]. rewrite !scrape_loop_round.
  destruct (s <? max_empty)%Z; [|done].
  destruct (scrape_page _ _ _ _ _ _) as [[[l g]|e|c|] t]; try done.
  cbv zeta. destruct (2000 <? p + 1)%Z eqn:Hp; [done|]. apply Z.ltb_ge in Hp.
  rewrite (IH fuel'); [done|lia..].
Qed.

(** ** The orchestrator *)

Abbreviation fetch_wpcom := (fetch_posts_via_wpcom_api net).
Abbreviation fetch_site := (fetch_posts_via_site_rest net).
Abbreviation scrape := (scrape_posts_from_paged_lists net soup_select urljoin).
Abbreviation harvest := (harvest_all_post_links net soup_select urljoin str_exn).

Lemma try_block_rest_tier label (fetch : M (list json)) :
  try_except
    (posts ← fetch;
     if json_truthy (JArr posts) then
       links ← lift_exn (link_set posts); mret (Some (sorted links))
     else mret None)
    (λ e, _ ← print_stderr (label +:+ str_exn e); mret None)
  = rest_tier str_exn label fetch.
Proof.
  destruct fetch as [[posts|e|c|] t]; cbn [rest_tier]; try done.
  - mstep. destruct posts as [|p posts]; cbn [json_truthy].
    + unfold mret, M_ret. cbn. by rewrite app_nil_r.
    + destruct (link_set (p :: posts)) as [e|s]; cbn [lift_exn].
      * unfold raise. mstep. cbn. by rewrite app_nil_r.
      * mstep. unfold mret, M_ret. cbn. by rewrite app_nil_r.
Qed.

Lemma harvest_refines fuel site :
  harvest fuel site =
  first_nonempty_tier
    (rest_tier str_exn warn_wpcom (fetch_wpcom fuel (norm_site site).2))
    (rest_tier str_exn warn_site (fetch_site fuel (norm_site site).1))
    (scrape fuel (norm_site site).1 2).
Proof.
  unfold harvest_all_post_links. destruct (norm_site site) as [base_url hostname].
  cbn [fst snd].
  rewrite (try_block_rest_tier warn_wpcom). rewrite (try_block_rest_tier warn_site).
  unfold first_nonempty_tier.
  destruct (rest_tier str_exn warn_wpcom _) as [[[l1|]|e1|c1|] t1]; try done.
  - mstep. unfold mret, M_ret. cbn. by rewrite app_nil_r.
  - mstep.
    destruct (rest_tier str_exn warn_site _) as [[[l2|]|e2|c2|] t2]; try done.
    + mstep. unfold mret, M_ret. cbn. by rewrite app_nil_r.
    + mstep. unfold print_stderr, emit. mstep. done.
Qed.





Lemma rest_tier_yields label (fetch : M (list json)) L :
  out (rest_tier str_exn label fetch) = Val (Some L) →
  ∃ posts s, out fetch = Val posts ∧ posts ≠ [] ∧ link_set posts = inr s ∧ L = sorted s.
Proof.
  destruct fetch as [[posts|e|c|] t]; cbn; try done.
  destruct posts as [|p posts]; [done|].
  destruct (link_set (p :: posts)) as [e|s] eqn:Hs; [done|].
  intros [= <-]. by exists (p :: posts), s.
Qed.

Lemma rest_tier_links label (fetch : M (list json)) posts s :
  out fetch = Val posts → posts ≠ [] → link_set posts = inr s →
  rest_tier str_exn label fetch = (Val (Some (sorted s)), trace fetch).
Proof.
  destruct fetch as [o t]. unfold out, trace. cbn [fst snd]. intros -> Hne Hs.
  cbn [rest_tier]. destruct posts as [|p posts]; [done|]. by rewrite Hs.
Qed.

Lemma harvest_output_cases fuel site L :
  out (harvest fuel site) = Val L →
  (∃ posts s, link_set posts = inr s ∧ L = sorted s)
  ∨ out (scrape fuel (norm_site site).1 2) = Val L.
Proof.
  rewrite harvest_refines. unfold first_nonempty_tier.
  destruct (rest_tier str_exn warn_wpcom _) as [[[l1|]|e1|c1|] t1] eqn:H1; try done.
  - intros [= <-]. left.
    destruct (rest_tier_yields warn_wpcom (fetch_wpcom fuel (norm_site site).2) l1)
      as (posts & s & _ & _ & Hs & ->); [by rewrite H1|]. by exists posts, s.
  - destruct (rest_tier str_exn warn_site _) as [[[l2|]|e2|c2|] t2] eqn:H2; try done.
    + intros [= <-]. left.
      destruct (rest_tier_yields warn_site (fetch_site fuel (norm_site site).1) l2)
        as (posts & s & _ & _ & Hs & ->); [by rewrite H2|]. by exists posts, s.
    + intros H. by right.
Qed.

Lemma scraped_link_normalized base_url x : scraped_link base_url x → normalized x.
Proof. intros (href & _ & ->). apply normalize_link_normalized. Qed.

(** C3: whatever tier produced it, the sequence harvest_all_post_links
    returns is sorted in the order of strings, has no duplicates, and holds
    only links without fragment and without trailing slash; when the
    WordPress.com tier yields posts that each carry a link, the sequence is the
    deduplicated, normalized, sorted list of those links, and no further
    tier runs. *)
Theorem harvest_links_sorted_unique_normalized (fuel : nat) (site : string) :
  (∀ links, out (harvest fuel site) = Val links →
     StronglySorted String.le links ∧ NoDup links ∧ (∀ x, x ∈ links → normalized x))
  ∧ (∀ posts ls,
       out (fetch_wpcom fuel (norm_site site).2) = Val posts →
       posts ≠ [] →
       Forall2 (λ p l, getitem p "link" = inr (JStr l)) posts ls →
       harvest fuel site
       = (Val (sorted_unique_links ls), trace (fetch_wpcom fuel (norm_site site).2))).
Proof.
  split.
  - intros links H. destruct (harvest_output_cases _ _ _ H) as [(posts & s & Hs & ->)|Hscr].
    + split; [apply StronglySorted_sorted|]. split; [apply NoDup_sorted|].
      intros x Hx. apply elem_of_sorted in Hx.
      destruct (link_set_elem _ _ _ Hs Hx) as (p & l & _ & _ & ->).
      apply normalize_link_normalized.
    + pose proof Hscr as Hscr'. unfold out in Hscr'.
      destruct (scrape_inv (norm_site site).1 (λ _, True)) with
        (fuel := fuel) (max_empty := 2%Z) (L := links) as (ls & _ & ->); [done..|].
      split; [apply StronglySorted_sorted|]. split; [apply NoDup_sorted|].
      intros x Hx. apply (scraped_link_normalized (norm_site site).1).
      by eapply scrape_links_scraped.
  - intros posts ls Hf Hne Hls. rewrite harvest_refines.
    rewrite (rest_tier_links warn_wpcom _ posts _ Hf Hne (link_set_links _ _ Hls)).
    cbn [first_nonempty_tier]. by rewrite sorted_list_to_set.
Qed.

Lemma scrape_never_diverges fuel base_url max_empty :
  (2000 ≤ fuel)%nat →
  out (scrape fuel base_url max_empty) ≠ Diverge.
Proof.
  intros Hf. unfold scrape_posts_from_paged_lists, requests_get. cbv zeta.
  destruct (net _) as [e|r]; cbv beta iota; [done|]. mstep.
  set (links0 := if ok r then _ else _).
  destruct (scrape_loop_run base_url max_empty fuel links0 0 1) as (Hd & _); [lia..|].
  destruct (scrape_loop _ _ _ fuel _ _ links0 _ _) as [[[[l s] p]|e|c|] t]; done.
Qed.

(** C5: the pagination loop of the scraper ends whatever the pages
    answer: with fuel for 2000 rounds it never runs out, it completes at
    most 2000 rounds, it never starts a round once the last max_empty rounds
    all came without new links, and when it leaves normally either that many
    rounds in a row found nothing or the page counter has passed 2000. *)
Theorem scrape_loop_terminates (fuel : nat) (base_url : string) (max_empty : Z)
    (links0 : gset string) :
  (2000 ≤ fuel)%nat →
  let run := scrape_loop net soup_select urljoin fuel base_url max_empty links0 0 1 in
  let flags := page_flags net soup_select urljoin fuel base_url max_empty links0 0 1 in
  out run ≠ Diverge
  ∧ run = scrape_loop net soup_select urljoin 2000 base_url max_empty links0 0 1
  ∧ sleeps (trace run) = length flags
  ∧ (length flags ≤ 2000)%nat
  ∧ (∀ k, (k < length flags)%nat →
       (Z.of_nat (trailing_misses (take k flags)) < max_empty)%Z)
  ∧ (∀ links empty_streak page, out run = Val (links, empty_streak, page) →
       empty_streak = Z.of_nat (trailing_misses flags)
       ∧ page = (1 + Z.of_nat (length flags))%Z
       ∧ (max_empty ≤ empty_streak ∨ page = 2001)%Z)
  ∧ out (scrape fuel base_url max_empty) ≠ Diverge.
Proof.
  intros Hf. cbv zeta.
  destruct (scrape_loop_run base_url max_empty fuel links0 0 1)
    as (H1 & H2 & H3 & H4 & H5); [lia..|].
  split_and!.
  - exact H1.
  - apply (scrape_loop_fuel base_url max_empty 2000 fuel); lia.
  - exact H2.
  - lia.
  - intros k Hk. rewrite <- streak_from_0_trailing. by apply H4.
  - intros l s p Hout. destruct (H5 l s p Hout) as (-> & -> & Hex).
    rewrite streak_from_0_trailing in *. split_and!; [done|lia|lia].
  - by apply scrape_never_diverges.
Qed.

(** ** The entry point *)

Abbreviation main_run := (main net soup_select urljoin str_exn).

Lemma write_csv_empty out_path :
  write_csv [] out_path = (Val (), [EvWrite out_path ("url" +:+ csv_crlf)]).
Proof. reflexivity. Qed.

Lemma main_after_harvest fuel prog site links :
  out (harvest fuel site) = Val links →
  main_run fuel [prog; site] =
  (Val (),
   trace (harvest fuel site)
   ++ [EvWrite "post_links.csv" (foldl (λ f url, f +:+ csv_writerow1 url)
                                      (csv_writerow1 "url") links);
       EvStdout ("Found " +:+ PyStr.of_nat (length links)
                 +:+ " posts. Wrote post_links.csv")]).
Proof.
  unfold main. destruct (harvest fuel site) as [o t]. unfold out, trace. cbn [fst snd].
  intros ->. mstep. unfold write_csv, print_stdout, emit. mstep. done.
Qed.


(** C4: every URL the archive scraper returns for a site is the normal
    form of an href that passed the origin test, and urlsplit reads in it
    the scheme and the network location of the site's base URL; a candidate
    whose origin differs from the base URL leaves the link set as it was,
    on every page. *)
Theorem scrape_links_same_origin (fuel : nat) (site : string) (max_empty : Z) :
  let base_url := (norm_site site).1 in
  (∀ L x, out (scrape fuel base_url max_empty) = Val L → x ∈ L →
     scraped_link base_url x ∧ url_origin x = url_origin base_url)
  ∧ (∀ links href,
       same_origin base_url (absolute_href urljoin base_url href) = false →
       extract_candidate urljoin base_url links (Some href) = links)
  ∧ (∀ html links x,
       x ∈ extract_links soup_select urljoin base_url html links →
       x ∈ links ∨ url_origin x = url_origin base_url).
Proof.
  cbv zeta. split_and!.
  - intros L x HL Hx.
    pose proof (scrape_links_scraped _ _ _ _ _ HL Hx) as Hs. split; [done|].
    destruct Hs as (href & Ho & ->).
    rewrite url_origin_normalize_link. by apply same_origin_norm_site.
  - intros links href Ho. rewrite extract_candidate_eq, Ho. by rewrite andb_false_r.
  - intros html links.
    apply (extract_links_inv (norm_site site).1
             (λ ls, ∀ x, x ∈ ls → x ∈ links ∨ url_origin x = url_origin (norm_site site).1)).
    + intros ls href HI Ho x Hx. apply elem_of_union in Hx as [Hx|Hx]; [|by apply HI].
      apply elem_of_singleton in Hx as ->. right.
      rewrite url_origin_normalize_link. by apply same_origin_norm_site.
    + intros x Hx. by left.
Qed.

End HarvesterFacts.


Example fetch_wpcom_on_200_empty :
  fetch_posts_via_wpcom_api net_empty_array 1 "example.com"
  = (Val [], [EvGet (mkRequest (wpcom_url "example.com") (rest_params 1))]).
Proof. reflexivity. Qed.



Lemma harvest_links_sorted_unique_normalized_witness :
  let net := net_wpcom_posts in
  let run := harvest_all_post_links net select_words join_concat str_exn_name 3 "example.com" in
  out run = Val ["https://example.com/a"; "https://example.com/b"]
  ∧ out (fetch_posts_via_wpcom_api net 3 "example.com") = Val example_posts
  ∧ StronglySorted String.le ["https://example.com/a"; "https://example.com/b"]
  ∧ run = (Val (sorted_unique_links
                  ["https://example.com/b/#more"; "https://example.com/a/";
                   "https://example.com/b"]),
           trace (fetch_posts_via_wpcom_api net 3 "example.com")).
Proof.
  cbv zeta.
  destruct (harvest_links_sorted_unique_normalized net_wpcom_posts select_words
              join_concat str_exn_name 3 "example.com") as [H1 H2].
  split; [reflexivity|]. split; [reflexivity|].
  split; [exact (proj1 (H1 _ eq_refl))|].
  apply (H2 example_posts); [reflexivity|discriminate|].
  repeat constructor.
Defined.

Lemma scrape_loop_terminates_witness :
  (2000 ≤ 2000)%nat
  ∧ out (scrape_loop (net_all 404) select_words join_concat 2000 "https://example.com" 2 ∅ 0 1)
    ≠ Diverge
  ∧ page_flags (net_all 404) select_words join_concat 2000 "https://example.com" 2 ∅ 0 1
    = [false; false].
Proof.
  split; [lia|].
  split; [|reflexivity].
  apply (scrape_loop_terminates (net_all 404) select_words join_concat 2000
           "https://example.com" 2 ∅). lia.
Defined.

Example scrape_loop_two_empty_pages :
  scrape_loop (net_all 404) select_words join_concat 2000 "https://example.com" 2 ∅ 0 1
  = (Val (∅, 2%Z, 3%Z),
     [EvGet (mkRequest "https://example.com/page/1/" []);
      EvGet (mkRequest "https://example.com/?paged=1" []);
      EvSleep;
      EvGet (mkRequest "https://example.com/page/2/" []);
      EvGet (mkRequest "https://example.com/?paged=2" []);
      EvSleep]).
Proof. reflexivity. Qed.

Example scrape_loop_three_pages :
  exit_counters
    (scrape_loop net_three_pages select_words join_concat 2000 "https://example.com" 2 ∅ 0 1)
  = Some (2%Z, 6%Z)
  ∧ page_flags net_three_pages select_words join_concat 2000 "https://example.com" 2 ∅ 0 1
    = [true; true; true; false; false]
  ∧ out (scrape_posts_from_paged_lists net_three_pages select_words join_concat 2000
           "https://example.com" 2)
    = Val ["https://example.com/page/1"; "https://example.com/page/2";
           "https://example.com/page/3"].
Proof. vm_compute. done. Qed.


Example csv_rows :
  csv_writerow1 "url" = "url" +:+ csv_crlf
  ∧ csv_writerow1 "https://example.com/a,b"
    = String csv_quote ("https://example.com/a,b" +:+ String csv_quote csv_crlf)
  ∧ csv_writerow1 "" = String csv_quote (String csv_quote csv_crlf)
  ∧ write_csv ["https://example.com/a"; "https://example.com/b"] "post_links.csv"
    = (Val (),
       [EvWrite "post_links.csv"
          ("url" +:+ csv_crlf +:+ "https://example.com/a" +:+ csv_crlf
           +:+ "https://example.com/b" +:+ csv_crlf)]).
Proof. repeat split. Qed.

Example python_values :
  PyStr.of_Z 12 = "12"
  ∧ rest_params 3 = [("per_page", "100"); ("page", "3"); ("_fields", "id,link,date")]
  ∧ utf8_chars "aé…" = ["a"; "é"; "…"]
  ∧ json_iter (JObj [("code", JStr "rest_no_route"); ("data", JNull)])
    = inr [JStr "code"; JStr "data"]
  ∧ getitem (JStr "code") "link" = inl TypeError
  ∧ link_set [JObj [("id", JNum 1)]] = inl (KeyError "link").
Proof. repeat split. Qed.

Example main_usage :
  main (net_all 404) select_words join_concat str_exn_name 2000 ["get_wp_post_links.py"]
  = (Exit 1,
     [EvStderr "Usage: python get_wp_post_links.py <wordpress_site_url_or_hostname>";
      EvStderr "Example: python get_wp_post_links.py myblog.wordpress.com";
      EvStderr "         python get_wp_post_links.py https://example.com"]).
Proof. reflexivity. Qed.

Example scrape_mixed_links :
  out (scrape_posts_from_paged_lists net_mixed_links select_words join_concat 2000
         "https://example.com" 2)
  = Val ["https://example.com/a"; "https://example.com/c"].
Proof. vm_compute. reflexivity. Qed.

Lemma scrape_links_same_origin_witness :
  let run := scrape_posts_from_paged_lists net_mixed_links select_words join_concat 2000
               (norm_site "example.com").1 2 in
  out run = Val ["https://example.com/a"; "https://example.com/c"]
  ∧ url_origin "https://example.com/c" = url_origin (norm_site "example.com").1
  ∧ extract_candidate join_concat (norm_site "example.com").1 ∅ (Some "https://other.org/b")
    = ∅.
Proof.
  cbv zeta.
  destruct (scrape_links_same_origin net_mixed_links select_words join_concat 2000
              "example.com" 2) as (H1 & H2 & _).
  split; [reflexivity|]. split.
  - apply (H1 ["https://example.com/a"; "https://example.com/c"]); [reflexivity|].
    apply list_elem_of_further, list_elem_of_here.
  - apply H2. reflexivity.
Defined.

(** ** The XML pretty-printer *)

Section PrettyXmlFacts.

Variable tree : Type.
Variable etree_parse : string → option tree.
Variable etree_tostring : tree → string.
Variable can_create : string → bool.

Abbreviation run_script := (PrettyXml.script tree etree_parse etree_tostring can_create).

Lemma script_eq prog arg more fs :
  run_script (prog :: arg :: more) fs =
  PrettyXml.pretty_print_xml tree etree_parse etree_tostring can_create
    arg ("pretty_" +:+ arg) fs.
Proof. reflexivity. Qed.

Lemma pretty_print_xml_writes input_file output_file (fs fs' : gmap string string) :
  PrettyXml.pretty_print_xml tree etree_parse etree_tostring can_create
    input_file output_file fs = inr fs' →
  ∃ content t,
    fs !! input_file = Some content ∧ etree_parse content = Some t
    ∧ fs' = <[output_file := etree_tostring t]> fs.
Proof.
  unfold PrettyXml.pretty_print_xml.
  destruct (fs !! input_file) as [content|] eqn:Hc; [|done].
  destruct (etree_parse content) as [t|] eqn:Ht; [|done].
  destruct (can_create output_file); [|done].
  intros [= <-]. by exists content, t.
Qed.

(** C10: the script writes to the path made of "pretty_" followed by the
    whole command-line argument: when it succeeds, that path holds the
    pretty-printed document and every other path is as before; for
    "dir/file.xml" this is "pretty_dir/file.xml", and "dir/pretty_file.xml"
    is not written. *)
Theorem script_writes_prefixed_argument (prog arg : string) (more : list string)
    (fs : gmap string string) :
  (∀ content t,
     fs !! arg = Some content → etree_parse content = Some t →
     can_create ("pretty_" +:+ arg) = true →
     PrettyXml.script tree etree_parse etree_tostring can_create (prog :: arg :: more) fs
     = inr (<["pretty_" +:+ arg := etree_tostring t]> fs))
  ∧ (∀ fs', PrettyXml.script tree etree_parse etree_tostring can_create (prog :: arg :: more) fs = inr fs' →
       (∃ content t, fs !! arg = Some content ∧ etree_parse content = Some t
                     ∧ fs' !! ("pretty_" +:+ arg) = Some (etree_tostring t))
       ∧ ∀ path, path ≠ "pretty_" +:+ arg → fs' !! path = fs !! path)
  ∧ (arg = "dir/file.xml" → "pretty_" +:+ arg = "pretty_dir/file.xml").
Proof.
  split_and!.
  - intros content t Hc Ht Hw. rewrite script_eq. unfold PrettyXml.pretty_print_xml.
    by rewrite Hc, Ht, Hw.
  - intros fs' Hrun. rewrite script_eq in Hrun.
    destruct (pretty_print_xml_writes _ _ _ _ Hrun) as (content & t & Hc & Ht & ->).
    split.
    + exists content, t. by rewrite lookup_insert_eq.
    + intros path Hne. by rewrite lookup_insert_ne.
  - by intros ->.
Qed.

End PrettyXmlFacts.

Lemma script_writes_prefixed_argument_witness :
  let fs : gmap string string := {[ "dir/file.xml" := "<a><b/></a>" ]} in
  let fs' := <["pretty_dir/file.xml" := "<a><b/></a>"]> fs in
  PrettyXml.script string Some id (λ _, true) ["prettyxml.py"; "dir/file.xml"] fs = inr fs'
  ∧ fs' !! "dir/pretty_file.xml" = None.
Proof.
  cbv zeta.
  destruct (script_writes_prefixed_argument string Some id (λ _, true)
              "prettyxml.py" "dir/file.xml" [] {[ "dir/file.xml" := "<a><b/></a>" ]})
    as (H1 & _ & _).
  split; [|reflexivity].
  apply (H1 "<a><b/></a>" "<a><b/></a>"); reflexivity.
Defined.

(** * Further properties of the harvester *)

Set Warnings "-clear-no-such-hyp".

(** ** The pagination of the REST clients *)

Lemma rest_schedule_pair url page n :
  rest_schedule url page (2 * S n) =
  EvGet (mkRequest url (rest_params page)) :: EvSleep :: rest_schedule url (page + 1) (2 * n).
Proof. by replace (2 * S n)%nat with (S (S (2 * n))) by lia. Qed.

Lemma rest_schedule_last url page n :
  rest_schedule url page (2 * n) ++ [EvGet (mkRequest url (rest_params (page + Z.of_nat n)))]
  = rest_schedule url page (2 * n + 1).
Proof.
  revert page. induction n as [|n IH]; intros page.
  - cbn. by rewrite Z.add_0_r.
  - rewrite rest_schedule_pair.
    replace (2 * S n + 1)%nat with (S (S (2 * n + 1))) by lia.
    cbn [rest_schedule app]. rewrite <- IH.
    by replace (page + 1 + Z.of_nat n)%Z with (page + Z.of_nat (S n))%Z by lia.
Qed.

Section RestLoop.

Variable net : request → exn + response.
Variable quiet : Z → bool.
Variable url : string.
Variable loop : nat → list json → Z → M (list json).

Hypothesis loop_O : ∀ posts page, loop O posts page = (Diverge, []).
Hypothesis loop_S : ∀ fuel posts page,
  loop (S fuel) posts page =
  rest_round net quiet (mkRequest url (rest_params page)) posts
    (λ posts', loop fuel posts' (page + 1)).
Hypothesis quiet_error : ∀ s, quiet s = true → is_error_status s = true.

Lemma loop_serves fuel posts page b :
  serves net url page (JArr b) → b ≠ [] →
  loop (S fuel) posts page =
  ((loop fuel (posts ++ b) (page + 1)).1,
   EvGet (mkRequest url (rest_params page)) :: EvSleep
   :: (loop fuel (posts ++ b) (page + 1)).2).
Proof.
  intros (r & Hnet & He & Hb) Hne. rewrite loop_S. unfold rest_round.
  rewrite Hnet, He, Hb.
  destruct (quiet (status_code r)) eqn:Hq; [apply quiet_error in Hq; congruence|].
  by destruct b.
Qed.

Lemma loop_pages bs fuel posts page :
  (∀ i b, bs !! i = Some b → b ≠ [] ∧ serves net url (page + Z.of_nat i) (JArr b)) →
  loop (length bs + fuel) posts page =
  ((loop fuel (posts ++ concat bs) (page + Z.of_nat (length bs))).1,
   rest_schedule url page (2 * length bs)
   ++ (loop fuel (posts ++ concat bs) (page + Z.of_nat (length bs))).2).
Proof.
  revert posts page. induction bs as [|b bs IH]; intros posts page Hbs.
  - cbn [length concat Nat.add]. rewrite app_nil_r, Z.add_0_r. cbn.
    by destruct (loop fuel posts page).
  - destruct (Hbs 0%nat b eq_refl) as [Hne Hs]. rewrite Z.add_0_r in Hs.
    cbn [length Nat.add]. rewrite (loop_serves _ _ _ b Hs Hne).
    rewrite IH.
    2:{ intros i b' Hi. destruct (Hbs (S i) b' Hi) as [Hne' Hs']. split; [done|].
        by replace (page + 1 + Z.of_nat i)%Z with (page + Z.of_nat (S i))%Z by lia. }
    cbn [fst snd concat]. rewrite rest_schedule_pair, (assoc_L (++)).
    by replace (page + 1 + Z.of_nat (length bs))%Z
      with (page + Z.of_nat (S (length bs)))%Z by lia.
Qed.

Lemma loop_trace fuel posts page :
  ∃ n, (n ≤ 2 * fuel)%nat ∧ (loop fuel posts page).2 = rest_schedule url page n.
Proof.
  revert posts page. induction fuel as [|fuel IH]; intros posts page.
  - exists 0%nat. by rewrite loop_O.
  - rewrite loop_S. unfold rest_round.
    destruct (net _) as [e|r]; [exists 1%nat; split; [lia|done]|].
    destruct (quiet (status_code r)); [exists 1%nat; split; [lia|done]|].
    destruct (is_error_status (status_code r)); [exists 1%nat; split; [lia|done]|].
    destruct (json_body r) as [batch|]; [|exists 1%nat; split; [lia|done]].
    destruct (json_truthy batch); [|exists 1%nat; split; [lia|done]].
    destruct (json_iter batch) as [e|items]; [exists 1%nat; split; [lia|done]|].
    destruct (IH (posts ++ items) (page + 1)%Z) as (n & Hn & Ht).
    exists (S (S n)). split; [lia|]. cbn [snd rest_schedule]. by rewrite Ht.
Qed.

Lemma loop_endless fuel posts page :
  (∀ p, (page ≤ p)%Z → ∃ b, b ≠ [] ∧ serves net url p (JArr b)) →
  loop fuel posts page = (Diverge, rest_schedule url page (2 * fuel)).
Proof.
  revert posts page. induction fuel as [|fuel IH]; intros posts page Hs.
  - by rewrite loop_O.
  - destruct (Hs page) as (b & Hne & Hb); [lia|].
    rewrite (loop_serves _ _ _ b Hb Hne), rest_schedule_pair.
    rewrite IH; [done|]. intros p Hp. apply Hs. lia.
Qed.

End RestLoop.

Lemma wpcom_quiet_error s : wpcom_quiet s = true → is_error_status s = true.
Proof. rewrite wpcom_quiet_iff. unfold is_error_status. lia. Qed.

Lemma site_rest_quiet_error s : site_rest_quiet s = true → is_error_status s = true.
Proof. rewrite site_rest_quiet_iff. unfold is_error_status. lia. Qed.

Lemma rest_round_quiet net quiet rq r posts next :
  net rq = inr r → quiet (status_code r) = true →
  rest_round net quiet rq posts next = (Val [], [EvGet rq]).
Proof. intros Hnet Hq. unfold rest_round. by rewrite Hnet, Hq. Qed.

Lemma bind_exit {A B} (f : A → M B) (c : Z) (t : list event) :
  mbind f ((Exit c, t) : M A) = (Exit c, t).
Proof. reflexivity. Qed.

Ltac mstep :=
  repeat first
    [ rewrite bind_ret | rewrite bind_val | rewrite bind_raise | rewrite bind_diverge
    | rewrite bind_exit ];
  cbn [fst snd].

Section HarvesterMore.

Set Default Proof Using "Type".

Variable net : request → exn + response.
Variable soup_select : string → string → list (option string).
Variable urljoin : string → string → string.
Variable str_exn : exn → string.

(** X1: when the WordPress.com API serves the non-empty batches [bs] on
    pages 1, 2, ... and the client has fuel for one more request, the answer
    to that request decides the result: an empty batch gives all posts in
    page order, a 404 or 401 gives the empty list, any other status from
    400 to 599 raises HTTPError; in each case the requests are those for the
    pages 1 to [length bs + 1], with a sleep between two requests. *)
Theorem fetch_wpcom_pages (hostname : string) (bs : list (list json)) (fuel : nat)
    (r_end : response) :
  (∀ i b, bs !! i = Some b →
     b ≠ [] ∧ serves net (wpcom_url hostname) (1 + Z.of_nat i) (JArr b)) →
  net (mkRequest (wpcom_url hostname) (rest_params (1 + Z.of_nat (length bs)))) = inr r_end →
  (length bs < fuel)%nat →
  (∀ last, is_error_status (status_code r_end) = false →
     json_body r_end = Some last → json_truthy last = false →
     fetch_posts_via_wpcom_api net fuel hostname
     = (Val (concat bs), rest_schedule (wpcom_url hostname) 1 (2 * length bs + 1)))
  ∧ (status_code r_end = 404%Z ∨ status_code r_end = 401%Z →
     fetch_posts_via_wpcom_api net fuel hostname
     = (Val [], rest_schedule (wpcom_url hostname) 1 (2 * length bs + 1)))
  ∧ (is_error_status (status_code r_end) = true →
     status_code r_end ≠ 404%Z → status_code r_end ≠ 401%Z →
     fetch_posts_via_wpcom_api net fuel hostname
     = (Raise (HTTPError (status_code r_end)),
        rest_schedule (wpcom_url hostname) 1 (2 * length bs + 1))).
Proof.
  clear urljoin soup_select.
  intros Hbs Hend Hfuel.
  destruct (Nat.le_exists_sub (S (length bs)) fuel) as (k & -> & _); [lia|].
  replace (k + S (length bs))%nat with (length bs + S k)%nat by lia.
  unfold fetch_posts_via_wpcom_api.
  rewrite (loop_pages net wpcom_quiet (wpcom_url hostname)
             (λ fuel, wpcom_loop net fuel hostname)
             (λ fuel posts page, wpcom_loop_round net fuel hostname posts page)
             wpcom_quiet_error bs (S k) [] 1 Hbs).
  rewrite wpcom_loop_round, <- rest_schedule_last. cbn [app].
  split_and!.
  - intros last He Hb Ht.
    rewrite (rest_round_empty_batch net wpcom_quiet _ r_end last); try done.
    apply not_true_is_false. intros Hq%wpcom_quiet_error. congruence.
  - intros Hq%wpcom_quiet_iff. by rewrite (rest_round_quiet net wpcom_quiet _ r_end).
  - intros He H404 H401. rewrite (rest_round_error net wpcom_quiet _ r_end); try done.
    apply not_true_is_false. rewrite wpcom_quiet_iff. tauto.
Qed.

(** X2: the same for the site's own REST endpoint, where 403 too gives
    the empty list. *)
Theorem fetch_site_rest_pages (base_url : string) (bs : list (list json)) (fuel : nat)
    (r_end : response) :
  (∀ i b, bs !! i = Some b →
     b ≠ [] ∧ serves net (site_rest_url base_url) (1 + Z.of_nat i) (JArr b)) →
  net (mkRequest (site_rest_url base_url) (rest_params (1 + Z.of_nat (length bs))))
  = inr r_end →
  (length bs < fuel)%nat →
  (∀ last, is_error_status (status_code r_end) = false →
     json_body r_end = Some last → json_truthy last = false →
     fetch_posts_via_site_rest net fuel base_url
     = (Val (concat bs), rest_schedule (site_rest_url base_url) 1 (2 * length bs + 1)))
  ∧ (status_code r_end = 404%Z ∨ status_code r_end = 401%Z ∨ status_code r_end = 403%Z →
     fetch_posts_via_site_rest net fuel base_url
     = (Val [], rest_schedule (site_rest_url base_url) 1 (2 * length bs + 1)))
  ∧ (is_error_status (status_code r_end) = true →
     status_code r_end ≠ 404%Z → status_code r_end ≠ 401%Z → status_code r_end ≠ 403%Z →
     fetch_posts_via_site_rest net fuel base_url
     = (Raise (HTTPError (status_code r_end)),
        rest_schedule (site_rest_url base_url) 1 (2 * length bs + 1))).
Proof.
  clear urljoin soup_select.
  intros Hbs Hend Hfuel.
  destruct (Nat.le_exists_sub (S (length bs)) fuel) as (k & -> & _); [lia|].
  replace (k + S (length bs))%nat with (length bs + S k)%nat by lia.
  unfold fetch_posts_via_site_rest.
  rewrite (loop_pages net site_rest_quiet (site_rest_url base_url)
             (λ fuel, site_rest_loop net fuel base_url)
             (λ fuel posts page, site_rest_loop_round net fuel base_url posts page)
             site_rest_quiet_error bs (S k) [] 1 Hbs).
  rewrite site_rest_loop_round, <- rest_schedule_last. cbn [app].
  split_and!.
  - intros last He Hb Ht.
    rewrite (rest_round_empty_batch net site_rest_quiet _ r_end last); try done.
    apply not_true_is_false. intros Hq%site_rest_quiet_error. congruence.
  - intros Hq%site_rest_quiet_iff.
    by rewrite (rest_round_quiet net site_rest_quiet _ r_end).
  - intros He H404 H401 H403.
    rewrite (rest_round_error net site_rest_quiet _ r_end); try done.
    apply not_true_is_false. rewrite site_rest_quiet_iff. tauto.
Qed.

(** X3: the REST clients have no page ceiling: against a server that
    serves a non-empty batch on every page they never return; whatever the
    fuel, it is used up on requests for the pages 1, 2, 3, ... *)
Theorem rest_clients_unbounded (hostname base_url : string) (fuel : nat) :
  (∀ p, (1 ≤ p)%Z → ∃ b, b ≠ [] ∧ serves net (wpcom_url hostname) p (JArr b)) →
  (∀ p, (1 ≤ p)%Z → ∃ b, b ≠ [] ∧ serves net (site_rest_url base_url) p (JArr b)) →
  fetch_posts_via_wpcom_api net fuel hostname
  = (Diverge, rest_schedule (wpcom_url hostname) 1 (2 * fuel))
  ∧ fetch_posts_via_site_rest net fuel base_url
    = (Diverge, rest_schedule (site_rest_url base_url) 1 (2 * fuel)).
Proof.
  intros H1 H2. split.
  - apply (loop_endless net wpcom_quiet (wpcom_url hostname)
             (λ fuel, wpcom_loop net fuel hostname)); try done.
    + intros f posts page. apply wpcom_loop_round.
    + apply wpcom_quiet_error.
  - apply (loop_endless net site_rest_quiet (site_rest_url base_url)
             (λ fuel, site_rest_loop net fuel base_url)); try done.
    + intros f posts page. apply site_rest_loop_round.
    + apply site_rest_quiet_error.
Qed.

(** X4: whatever the server answers, a REST client does nothing but ask
    for the pages 1, 2, 3, ... in this order, sleeping once between two
    requests: its trace is an initial part of that schedule. *)
Theorem rest_clients_throttled (hostname base_url : string) (fuel : nat) :
  (∃ n, (n ≤ 2 * fuel)%nat
        ∧ trace (fetch_posts_via_wpcom_api net fuel hostname)
          = rest_schedule (wpcom_url hostname) 1 n)
  ∧ (∃ n, (n ≤ 2 * fuel)%nat
          ∧ trace (fetch_posts_via_site_rest net fuel base_url)
            = rest_schedule (site_rest_url base_url) 1 n).
Proof.
  split.
  - apply (loop_trace net wpcom_quiet (wpcom_url hostname)
             (λ fuel, wpcom_loop net fuel hostname)); [done|].
    intros f posts page. apply wpcom_loop_round.
  - apply (loop_trace net site_rest_quiet (site_rest_url base_url)
             (λ fuel, site_rest_loop net fuel base_url)); [done|].
    intros f posts page. apply site_rest_loop_round.
Qed.

(** ** Reading the links of the posts *)

Lemma link_set_ok_iff posts :
  (∃ s, link_set posts = inr s) ↔ Forall has_link posts.
Proof.
  induction posts as [|p posts IH]; cbn [link_set].
  - split; [by constructor|by exists ∅].
  - rewrite Forall_cons, <- IH. unfold has_link. split.
    + intros [s Hs]. destruct (getitem p "link") as [e|v]; [done|].
      destruct v; cbn [split_rstrip] in Hs; try done.
      destruct (link_set posts) as [e|s']; [done|]. split; by eexists.
    + intros [[l ->] [s' ->]]. cbn [split_rstrip]. by eexists.
Qed.

Lemma link_set_error posts e :
  link_set posts = inl e → e = TypeError ∨ e = KeyError "link" ∨ e = AttributeError.
Proof.
  induction posts as [|p posts IH]; cbn [link_set]; [done|].
  destruct (getitem p "link") as [e'|v] eqn:Hg.
  - intros [= <-]. unfold getitem in Hg. destruct p; try (injection Hg as <-; by left).
    destruct (assoc "link" items); [done|]. injection Hg as <-. right. by left.
  - destruct v; cbn [split_rstrip]; try (intros [= <-]; right; by right).
    destruct (link_set posts) as [e'|s']; [|done]. intros [= <-]. by apply IH.
Qed.

Lemma link_set_elem_of posts s p l :
  link_set posts = inr s → p ∈ posts → getitem p "link" = inr (JStr l) →
  normalize_link l ∈ s.
Proof.
  clear urljoin soup_select.
  revert s. induction posts as [|q posts IH]; intros s; cbn [link_set].
  - intros _ Hp. by apply elem_of_nil in Hp.
  - destruct (getitem q "link") as [e|v] eqn:Hq; [done|].
    destruct v as [| | |lq| |]; cbn [split_rstrip]; try done.
    destruct (link_set posts) as [e|s'] eqn:Hs; [done|].
    intros [= <-] Hp Hg. apply elem_of_cons in Hp as [->|Hp].
    + rewrite Hq in Hg. injection Hg as ->. set_solver.
    + apply elem_of_union_r. by apply IH.
Qed.

Lemma sorted_nil_empty (s : gset string) : sorted s = [] → s = ∅.
Proof.
  intros Hs. apply set_eq. intros x. rewrite <- elem_of_sorted, Hs.
  split; [by intros ?%elem_of_nil|by intros ?%not_elem_of_empty].
Qed.

Lemma link_set_nonempty p posts s : link_set (p :: posts) = inr s → sorted s ≠ [].
Proof.
  clear urljoin soup_select.
  cbn [link_set]. destruct (getitem p "link") as [e|v]; [done|].
  destruct (split_rstrip v) as [e|l]; [done|].
  destruct (link_set posts) as [e|s']; [done|]. intros [= <-] Hs%sorted_nil_empty.
  assert (l ∈ ({[ l ]} ∪ s' : gset string)) as Hl by set_solver.
  rewrite Hs in Hl. by apply not_elem_of_empty in Hl.
Qed.

(** X5: the links of a batch of posts can be read exactly when every post
    is a dict whose "link" is a string; otherwise reading them raises
    TypeError, KeyError or AttributeError, and in harvest_all_post_links a
    WordPress.com result with one such post is given up as a whole: the
    exception is reported and the next tier runs. *)
Theorem posts_need_every_link (fuel : nat) (site : string) (posts : list json) :
  ((∃ s, link_set posts = inr s) ↔ Forall has_link posts)
  ∧ (¬ Forall has_link posts →
     out (fetch_posts_via_wpcom_api net fuel (norm_site site).2) = Val posts →
     ∃ e, (e = TypeError ∨ e = KeyError "link" ∨ e = AttributeError)
          ∧ link_set posts = inl e
          ∧ harvest_all_post_links net soup_select urljoin str_exn fuel site
            = first_nonempty_tier
                (Val None,
                 trace (fetch_posts_via_wpcom_api net fuel (norm_site site).2)
                 ++ [EvStderr (warn_wpcom +:+ str_exn e)])
                (rest_tier str_exn warn_site
                   (fetch_posts_via_site_rest net fuel (norm_site site).1))
                (scrape_posts_from_paged_lists net soup_select urljoin fuel
                   (norm_site site).1 2)).
Proof.
  split; [apply link_set_ok_iff|]. intros Hbad Hfetch.
  destruct (link_set posts) as [e|s] eqn:Hs.
  2:{ exfalso. apply Hbad, link_set_ok_iff. by exists s. }
  exists e. split; [by apply link_set_error in Hs|]. split; [done|].
  rewrite harvest_refines. f_equal.
  destruct (fetch_posts_via_wpcom_api net fuel (norm_site site).2) as [o t].
  unfold out, trace in *. cbn [fst snd] in *. subst o. cbn [rest_tier].
  destruct posts as [|p posts]; [exfalso; apply Hbad; constructor|]. by rewrite Hs.
Qed.

(** X6: the link set read from posts depends neither on the order of the
    posts nor on repetitions: two batches with the same posts give the same
    sorted links. *)
Theorem link_set_order_independent (posts posts' : list json) (s s' : gset string) :
  link_set posts = inr s → link_set posts' = inr s' →
  (∀ p, p ∈ posts ↔ p ∈ posts') →
  s = s' ∧ sorted s = sorted s'.
Proof.
  intros Hs Hs' Hsame.
  assert (s = s') as ->; [|done].
  apply set_eq. intros x. split; intros Hx.
  - destruct (link_set_elem _ _ _ Hs Hx) as (p & l & Hp & Hg & ->).
    apply (link_set_elem_of posts' s' p l); [done| |done]. by apply Hsame.
  - destruct (link_set_elem _ _ _ Hs' Hx) as (p & l & Hp & Hg & ->).
    apply (link_set_elem_of posts s p l); [done| |done]. by apply Hsame.
Qed.

(** X7: harvest_all_post_links returns the empty list only out of the
    scraper: a REST tier that yields links yields at least one, so an empty
    result means that both REST tiers gave nothing and that the scraper
    found no link. *)
Theorem harvest_empty_only_from_scraper (fuel : nat) (site : string) :
  out (harvest_all_post_links net soup_select urljoin str_exn fuel site) = Val [] →
  out (rest_tier str_exn warn_wpcom
         (fetch_posts_via_wpcom_api net fuel (norm_site site).2)) = Val None
  ∧ out (rest_tier str_exn warn_site
           (fetch_posts_via_site_rest net fuel (norm_site site).1)) = Val None
  ∧ out (scrape_posts_from_paged_lists net soup_select urljoin fuel (norm_site site).1 2)
    = Val [].
Proof.
  assert (Hne : ∀ label fetch, out (rest_tier str_exn label fetch) ≠ Val (Some [])).
  { intros label fetch H.
    destruct (rest_tier_yields str_exn label fetch [] H) as (posts & s & _ & Hp & Hs & Hnil).
    destruct posts as [|p posts]; [done|]. by apply (link_set_nonempty p posts s). }
  rewrite harvest_refines. unfold first_nonempty_tier.
  pose proof (Hne warn_wpcom (fetch_posts_via_wpcom_api net fuel (norm_site site).2)) as H1.
  pose proof (Hne warn_site (fetch_posts_via_site_rest net fuel (norm_site site).1)) as H2.
  destruct (rest_tier str_exn warn_wpcom _) as [[[l1|]|e1|c1|] t1]; try done.
  { unfold out in *. cbn [fst] in *. intros [= ->]. done. }
  destruct (rest_tier str_exn warn_site _) as [[[l2|]|e2|c2|] t2]; try done.
  unfold out in *. cbn [fst] in *. intros [= ->]. done.
Qed.

(** ** The link set of the scraper *)

Lemma extract_candidate_union base_url links c :
  extract_candidate urljoin base_url links c
  = links ∪ extract_candidate urljoin base_url ∅ c.
Proof.
  clear soup_select.
  rewrite !extract_candidate_eq. destruct c as [href|]; [|set_solver].
  destruct (_ && _); set_solver.
Qed.

Lemma foldl_extract_union base_url cs links :
  foldl (extract_candidate urljoin base_url) links cs
  = links ∪ foldl (extract_candidate urljoin base_url) ∅ cs.
Proof.
  clear soup_select.
  revert links. induction cs as [|c cs IH]; intros links; cbn [foldl]; [set_solver|].
  rewrite IH, (IH (extract_candidate urljoin base_url ∅ c)).
  rewrite (extract_candidate_union base_url links c). set_solver.
Qed.

Lemma extract_links_union_eq base_url html links :
  extract_links soup_select urljoin base_url html links
  = links ∪ extract_links soup_select urljoin base_url html ∅.
Proof. unfold extract_links. apply foldl_extract_union. Qed.

(** X8: extract_links only adds to the link set, and what it adds depends
    on the page alone: the result is the union of the links held and the
    links of the page; so a page seen twice adds nothing the second time. *)
Theorem extract_links_union (base_url html : string) (links : gset string) :
  extract_links soup_select urljoin base_url html links
  = links ∪ extract_links soup_select urljoin base_url html ∅
  ∧ links ⊆ extract_links soup_select urljoin base_url html links
  ∧ extract_links soup_select urljoin base_url html
      (extract_links soup_select urljoin base_url html links)
    = extract_links soup_select urljoin base_url html links.
Proof.
  split_and!.
  - apply extract_links_union_eq.
  - rewrite extract_links_union_eq. set_solver.
  - rewrite (extract_links_union_eq base_url html (extract_links _ _ _ _ links)).
    rewrite (extract_links_union_eq base_url html links). set_solver.
Qed.

(** X9: got_any is true exactly when the response is ok, has a text, and
    the page holds a link that the set does not hold yet; when it is false
    the link set is as before. *)
Theorem extract_page_got_any (base_url : string) (r : response) (links : gset string) :
  ((extract_page soup_select urljoin base_url r links).2 = true
   ↔ ok r = true ∧ PyStr.truthy (text r) = true
     ∧ ∃ x, x ∈ extract_links soup_select urljoin base_url (text r) ∅ ∧ x ∉ links)
  ∧ ((extract_page soup_select urljoin base_url r links).2 = false →
     (extract_page soup_select urljoin base_url r links).1 = links).
Proof.
  unfold extract_page.
  destruct (ok r); cbn [andb]; [|split; [split; [done|by intros (? & _)]|done]].
  destruct (PyStr.truthy (text r)); [|split; [split; [done|by intros (_ & ? & _)]|done]].
  cbn [fst snd]. rewrite extract_links_union_eq.
  set (new := extract_links soup_select urljoin base_url (text r) ∅).
  assert (Hsub : links ⊆ links ∪ new) by set_solver.
  split.
  - rewrite bool_decide_eq_true. split.
    + intros Hlt. split; [done|]. split; [done|].
      destruct (set_Forall_Exists_dec (λ x, x ∈ links) (λ x, x ∉ links)
                  (λ x, decide (x ∈ links)) new) as [Hin|Hout]; [|exact Hout].
      assert (links ∪ new = links) as Heq by set_solver. rewrite Heq in Hlt. lia.
    + intros (_ & _ & x & Hx & Hnx). apply subset_size. set_solver.
  - rewrite bool_decide_eq_false. intros Hge.
    apply (anti_symm (⊆)); [|done].
    assert (links ∪ new ≡ links) as Heq; [|set_solver].
    symmetry. apply set_subseteq_size_equiv; [done|lia].
Qed.

(** ** The requests of the scraper *)

Lemma gets_app t1 t2 : gets (t1 ++ t2) = (gets t1 + gets t2)%nat.
Proof. induction t1 as [|e t1 IH]; [done|]. destruct e; cbn; by rewrite ?IH. Qed.

Lemma scrape_page_trace base_url links page :
  (1 ≤ gets (scrape_page net soup_select urljoin base_url links page).2 ≤ 2)%nat
  ∧ sleeps (scrape_page net soup_select urljoin base_url links page).2 = 0%nat.
Proof.
  rewrite scrape_page_round. cbv zeta.
  destruct (net (mkRequest _ [])) as [e|r1]; [cbn; lia|].
  destruct (extract_page _ _ _ r1 links).2; [cbn; lia|].
  destruct (net _) as [e|r2]; cbn; lia.
Qed.

Lemma scrape_loop_budget fuel base_url max_empty links s p :
  (gets (scrape_loop net soup_select urljoin fuel base_url max_empty links s p).2
   ≤ 2 * Z.to_nat (Z.max 1 (2001 - p)))%nat
  ∧ (sleeps (scrape_loop net soup_select urljoin fuel base_url max_empty links s p).2
     ≤ Z.to_nat (Z.max 1 (2001 - p)))%nat.
Proof.
  revert links s p. induction fuel as [|fuel IH]; intros links s p.
  - cbn [scrape_loop]. destruct (s <? max_empty)%Z; cbn; lia.
  - rewrite scrape_loop_round. destruct (s <? max_empty)%Z; [|cbn; lia].
    pose proof (scrape_page_trace base_url links p) as [Hg Hs].
    destruct (scrape_page _ _ _ _ _ _) as [[[l g]|e|c|] t]; cbn [snd] in *; try lia.
    cbv zeta. destruct (2000 <? p + 1)%Z eqn:Hp.
    + cbn [snd]. rewrite gets_app, sleeps_app. cbn. lia.
    + apply Z.ltb_ge in Hp. cbn [snd]. rewrite gets_app, sleeps_app. cbn [gets sleeps].
      destruct (IH l (if g then 0 else s + 1)%Z (p + 1)%Z) as [IHg IHs]. lia.
Qed.

(** X10: whatever the site answers and whatever max_empty is, one run of
    the scraper sends at least one and at most 4001 requests (the home page
    and at most two addresses for each of at most 2000 page numbers) and
    sleeps at most 2000 times. *)
Theorem scrape_request_budget (fuel : nat) (base_url : string) (max_empty : Z) :
  (1 ≤ gets (trace (scrape_posts_from_paged_lists net soup_select urljoin fuel
                      base_url max_empty)) ≤ 4001)%nat
  ∧ (sleeps (trace (scrape_posts_from_paged_lists net soup_select urljoin fuel
                      base_url max_empty)) ≤ 2000)%nat.
Proof.
  unfold scrape_posts_from_paged_lists, requests_get, trace. cbv zeta.
  destruct (net _) as [e|r]; cbv beta iota; [cbn; lia|]. mstep.
  set (links0 := if ok r then _ else _).
  destruct (scrape_loop_budget fuel base_url max_empty links0 0 1) as [Hg Hs].
  destruct (scrape_loop _ _ _ fuel _ _ links0 _ _) as [[[[l s] p]|e|c|] t];
    mstep; cbn [snd gets sleeps app] in *; rewrite ?app_nil_r; lia.
Qed.

(** X11: the scraper never loses a link: every link found on the home
    page is in the list it returns. *)
Theorem scrape_keeps_home_links (fuel : nat) (base_url : string) (max_empty : Z)
    (r : response) (L : list string) :
  net (mkRequest base_url []) = inr r →
  ok r = true →
  out (scrape_posts_from_paged_lists net soup_select urljoin fuel base_url max_empty)
  = Val L →
  ∀ x, x ∈ extract_links soup_select urljoin base_url (text r) ∅ → x ∈ L.
Proof.
  intros Hnet Hok. unfold scrape_posts_from_paged_lists, requests_get, out. cbv zeta.
  rewrite Hnet. cbv beta iota. mstep. rewrite Hok.
  set (links0 := extract_links soup_select urljoin base_url (text r) ∅).
  destruct (scrape_loop _ _ _ fuel _ _ links0 _ _) as [[[[l s] p]|e|c|] t] eqn:Hloop;
    try done.
  mstep. intros [= <-] x Hx. apply elem_of_sorted.
  assert (Hadd : ∀ links href, links0 ⊆ links → same_origin base_url href = true →
                 links0 ⊆ {[ normalize_link href ]} ∪ links) by set_solver.
  assert (Hstart : links0 ⊆ links0) by done.
  pose proof (scrape_loop_inv net soup_select urljoin base_url (λ links, links0 ⊆ links)
                Hadd fuel max_empty links0 0 1 (l, s, p) t Hstart Hloop) as Hsub.
  cbn [fst] in Hsub. by apply Hsub.
Qed.

(** ** What the program leaves behind *)

Lemma outputs_app t1 t2 : outputs (t1 ++ t2) = outputs t1 ++ outputs t2.
Proof. induction t1 as [|e t1 IH]; [done|]. destruct e; cbn; by rewrite ?IH. Qed.

Lemma outputs_rest_schedule url n :
  ∀ page, outputs (rest_schedule url page n) = []
          ∧ outputs (rest_schedule url page (S n)) = [].
Proof.
  induction n as [|n IH]; intros page; [done|].
  split; [apply IH|]. cbn [rest_schedule outputs]. apply IH.
Qed.

Lemma rest_loop_quiet quiet url (loop : nat → list json → Z → M (list json)) :
  (∀ posts page, loop O posts page = (Diverge, [])) →
  (∀ fuel posts page,
     loop (S fuel) posts page =
     rest_round net quiet (mkRequest url (rest_params page)) posts
       (λ posts', loop fuel posts' (page + 1)%Z)) →
  ∀ fuel posts page,
    outputs (loop fuel posts page).2 = [] ∧ ∀ c, (loop fuel posts page).1 ≠ Exit c.
Proof.
  intros HO HS fuel posts page. split.
  - destruct (loop_trace net quiet url loop HO HS fuel posts page) as (n & _ & ->).
    apply outputs_rest_schedule.
  - revert posts page. induction fuel as [|fuel IH]; intros posts page c.
    + by rewrite HO.
    + rewrite HS. unfold rest_round. destruct (net _) as [e|r]; [done|].
      destruct (quiet _); [done|]. destruct (is_error_status _); [done|].
      destruct (json_body r) as [batch|]; [|done].
      destruct (json_truthy batch); [|done].
      destruct (json_iter batch); [done|]. cbn [fst]. apply IH.
Qed.

Lemma rest_tier_quiet label (fetch : M (list json)) :
  outputs fetch.2 = [] → (∀ c, fetch.1 ≠ Exit c) →
  outputs (rest_tier str_exn label fetch).2 = []
  ∧ ∀ c, (rest_tier str_exn label fetch).1 ≠ Exit c.
Proof.
  destruct fetch as [[posts|e|c'|] t]; cbn [fst snd rest_tier]; intros Ht Hc.
  - destruct posts as [|p posts]; [done|].
    destruct (link_set (p :: posts)); cbn [fst snd]; [|done].
    by rewrite outputs_app, Ht.
  - by rewrite outputs_app, Ht.
  - by destruct (Hc c').
  - done.
Qed.

Lemma scrape_page_quiet base_url links page :
  outputs (scrape_page net soup_select urljoin base_url links page).2 = [].
Proof.
  rewrite scrape_page_round. cbv zeta.
  destruct (net (mkRequest _ [])) as [e|r1]; [done|].
  destruct (extract_page _ _ _ r1 links).2; [done|].
  by destruct (net _) as [e|r2].
Qed.

Lemma scrape_loop_quiet fuel base_url max_empty links s p :
  outputs (scrape_loop net soup_select urljoin fuel base_url max_empty links s p).2 = []
  ∧ ∀ c, (scrape_loop net soup_select urljoin fuel base_url max_empty links s p).1 ≠ Exit c.
Proof.
  revert links s p. induction fuel as [|fuel IH]; intros links s p.
  - cbn [scrape_loop]. by destruct (s <? max_empty)%Z.
  - rewrite scrape_loop_round. destruct (s <? max_empty)%Z; [|done].
    pose proof (scrape_page_quiet base_url links p) as Hq.
    destruct (scrape_page_outcome net soup_select urljoin base_url links p)
      as [([l g] & t & Heq & _)|(e & t & Heq & _)]; rewrite Heq in *; cbn [snd] in Hq;
      [|done].
    cbv zeta. destruct (2000 <? p + 1)%Z; cbn [fst snd].
    + by rewrite outputs_app, Hq.
    + rewrite outputs_app, Hq. cbn [outputs app]. apply IH.
Qed.

Lemma scrape_quiet fuel base_url max_empty :
  outputs (scrape_posts_from_paged_lists net soup_select urljoin fuel base_url max_empty).2
  = []
  ∧ ∀ c, (scrape_posts_from_paged_lists net soup_select urljoin fuel base_url max_empty).1
         ≠ Exit c.
Proof.
  unfold scrape_posts_from_paged_lists, requests_get. cbv zeta.
  destruct (net _) as [e|r]; cbv beta iota; [done|]. mstep.
  set (links0 := if ok r then _ else _).
  destruct (scrape_loop_quiet fuel base_url max_empty links0 0 1) as [Ho Hc].
  destruct (scrape_loop _ _ _ fuel _ _ links0 _ _) as [[[[l s] p]|e|c|] t];
    mstep; cbn [fst snd] in *; rewrite ?app_nil_r; try done.
  by destruct (Hc c).
Qed.

Lemma harvest_quiet fuel site :
  outputs (harvest_all_post_links net soup_select urljoin str_exn fuel site).2 = []
  ∧ ∀ c, (harvest_all_post_links net soup_select urljoin str_exn fuel site).1 ≠ Exit c.
Proof.
  rewrite harvest_refines. unfold first_nonempty_tier.
  destruct (rest_loop_quiet wpcom_quiet (wpcom_url (norm_site site).2)
              (λ fuel, wpcom_loop net fuel (norm_site site).2)
              (λ _ _, eq_refl)
              (λ fuel posts page, wpcom_loop_round net fuel _ posts page)
              fuel [] 1%Z) as [Hfo1 Hfc1].
  destruct (rest_tier_quiet warn_wpcom
              (fetch_posts_via_wpcom_api net fuel (norm_site site).2) Hfo1 Hfc1)
    as [Ho1 Hc1].
  destruct (rest_loop_quiet site_rest_quiet (site_rest_url (norm_site site).1)
              (λ fuel, site_rest_loop net fuel (norm_site site).1)
              (λ _ _, eq_refl)
              (λ fuel posts page, site_rest_loop_round net fuel _ posts page)
              fuel [] 1%Z) as [Hfo2 Hfc2].
  destruct (rest_tier_quiet warn_site
              (fetch_posts_via_site_rest net fuel (norm_site site).1) Hfo2 Hfc2)
    as [Ho2 Hc2].
  destruct (scrape_quiet fuel (norm_site site).1 2) as [Ho3 Hc3].
  destruct (rest_tier str_exn warn_wpcom _) as [[[l1|]|e1|c1|] t1]; cbn [fst snd] in *;
    try (split; done); [|by destruct (Hc1 c1)].
  destruct (rest_tier str_exn warn_site _) as [[[l2|]|e2|c2|] t2]; cbn [fst snd] in *;
    rewrite ?outputs_app, ?Ho1, ?Ho2, ?Ho3; cbn [outputs app];
    try (split; done).
  by destruct (Hc2 c2).
Qed.

(** X12: main exits with status 1 exactly when it is not given exactly
    one argument; it then prints the three usage lines on stderr and does
    nothing else: no request, no file. *)
Theorem main_usage_error (fuel : nat) (argv : list string) :
  (length argv ≠ 2%nat →
   main net soup_select urljoin str_exn fuel argv = (Exit 1, usage_lines))
  ∧ (length argv = 2%nat →
     ∀ c, out (main net soup_select urljoin str_exn fuel argv) ≠ Exit c).
Proof.
  split.
  - intros Hlen. destruct argv as [|a [|b [|c argv]]]; cbn [length] in Hlen;
      try lia; reflexivity.
  - intros Hlen c. destruct argv as [|prog [|site [|? ?]]]; try done.
    unfold main, out. destruct (harvest_quiet fuel site) as [_ Hc].
    destruct (harvest_all_post_links _ _ _ _ fuel site) as [[links|e|c'|] t];
      cbn [fst] in *; mstep; try done.
    by destruct (Hc c').
Qed.

(** X13: with one argument, main writes post_links.csv exactly once and
    only after harvest_all_post_links has returned: the file holds the header
    and the links, and the count printed is the number of links; when
    harvest_all_post_links raises, main raises the same exception, no file is
    written and nothing is printed on standard output. *)
Theorem main_writes_after_harvest (fuel : nat) (prog site : string) :
  (∀ links,
     out (harvest_all_post_links net soup_select urljoin str_exn fuel site) = Val links →
     out (main net soup_select urljoin str_exn fuel [prog; site]) = Val ()
     ∧ outputs (trace (main net soup_select urljoin str_exn fuel [prog; site]))
       = [EvWrite "post_links.csv" (csv_content links);
          EvStdout ("Found " +:+ PyStr.of_nat (length links)
                    +:+ " posts. Wrote post_links.csv")])
  ∧ (∀ e,
       out (harvest_all_post_links net soup_select urljoin str_exn fuel site) = Raise e →
       out (main net soup_select urljoin str_exn fuel [prog; site]) = Raise e
       ∧ outputs (trace (main net soup_select urljoin str_exn fuel [prog; site])) = []).
Proof.
  destruct (harvest_quiet fuel site) as [Ho _].
  split.
  - intros links Hh. rewrite (main_after_harvest net soup_select urljoin str_exn
                                fuel prog site links Hh).
    unfold out, trace. cbn [fst snd]. split; [done|].
    unfold trace in *. by rewrite outputs_app, Ho.
  - intros e Hh. unfold main, out, trace in *.
    destruct (harvest_all_post_links _ _ _ _ fuel site) as [o t]. cbn [fst snd] in *.
    subst o. by mstep.
Qed.

(** ** The CSV file *)

Lemma string_length_app (a b : string) :
  String.length (a +:+ b) = (String.length a + String.length b)%nat.
Proof. induction a as [|x a IH]; [done|]. rewrite string_app_cons. cbn. by rewrite IH. Qed.

Lemma string_app_inj_r (a b c : string) : a +:+ c = b +:+ c → a = b.
Proof.
  revert b. induction a as [|x a IH]; intros [|y b] H; [done| | |].
  - apply (f_equal String.length) in H. rewrite string_app_nil, string_length_app in H.
    cbn in H. lia.
  - apply (f_equal String.length) in H. rewrite string_app_nil, string_length_app in H.
    cbn in H. lia.
  - rewrite !string_app_cons in H. injection H as -> H. f_equal. by apply IH.
Qed.

Lemma csv_any_special_contains s :
  csv_any_special s = false → PyStr.contains csv_quote s = false
                              ∧ PyStr.contains "013" s = false.
Proof.
  induction s as [|a s IH]; [done|]. cbn [csv_any_special PyStr.contains].
  intros [Ha Hs]%orb_false_iff. destruct (IH Hs) as [H1 H2].
  unfold csv_special in Ha. rewrite !orb_false_iff, !bool_decide_eq_false in Ha.
  destruct Ha as [[[_ Hq] Hcr] _].
  destruct (decide (a = csv_quote)); [done|]. by destruct (decide (a = "013"%char)).
Qed.

Lemma csv_double_quotes_inj a b : csv_double_quotes a = csv_double_quotes b → a = b.
Proof.
  revert b. induction a as [|x a IH]; intros [|y b]; cbn [csv_double_quotes].
  - done.
  - by destruct (decide (y = csv_quote)).
  - by destruct (decide (x = csv_quote)).
  - destruct (decide (x = csv_quote)) as [->|Hx], (decide (y = csv_quote)) as [->|Hy].
    + intros [= H]. f_equal. by apply IH.
    + intros [= <- H]. done.
    + intros [= -> H]. done.
    + intros [= -> H]. f_equal. by apply IH.
Qed.

(** X14: the quoting of csv.writer loses nothing: two links with the same
    row are the same link. *)
Theorem csv_row_injective (a b : string) : csv_writerow1 a = csv_writerow1 b → a = b.
Proof.
  unfold csv_writerow1. intros H%string_app_inj_r.
  destruct (csv_any_special a || negb (PyStr.truthy a)) eqn:Ha,
           (csv_any_special b || negb (PyStr.truthy b)) eqn:Hb.
  - injection H as H. apply string_app_inj_r in H. by apply csv_double_quotes_inj.
  - apply orb_false_iff in Hb as [Hb _].
    apply csv_any_special_contains in Hb as [Hb _]. rewrite <- H in Hb.
    cbn [PyStr.contains] in Hb. by destruct (decide (csv_quote = csv_quote)).
  - apply orb_false_iff in Ha as [Ha _].
    apply csv_any_special_contains in Ha as [Ha _]. rewrite H in Ha.
    cbn [PyStr.contains] in Ha. by destruct (decide (csv_quote = csv_quote)).
  - done.
Qed.

Lemma csv_content_rows paths acc :
  foldl (λ f url, f +:+ csv_writerow1 url) acc paths
  = acc +:+ foldr (λ url rows, csv_writerow1 url +:+ rows) EmptyString paths.
Proof.
  revert acc. induction paths as [|u paths IH]; intros acc; cbn [foldl foldr].
  - by rewrite string_app_nil_r.
  - by rewrite IH, string_app_assoc.
Qed.

Lemma plain_rows_inj paths paths' :
  Forall (λ u, csv_plain u = true) paths → Forall (λ u, csv_plain u = true) paths' →
  plain_rows paths = plain_rows paths' → paths = paths'.
Proof.
  assert (Hcr : ∀ u, csv_plain u = true → PyStr.contains "013" u = false).
  { intros u [_ Hu%negb_true_iff]%andb_true_iff.
    by apply csv_any_special_contains in Hu as [_ ?]. }
  assert (Hne : ∀ u rows, csv_plain u = true → u +:+ csv_crlf +:+ rows ≠ "").
  { intros [|x u] rows Hu; [done|]. by rewrite string_app_cons. }
  intros Hp. revert paths'. induction Hp as [|u paths Hu Hp IH]; intros paths' Hp' Heq.
  - destruct Hp' as [|u' paths' Hu' _]; [done|]. cbn [plain_rows foldr] in Heq.
    symmetry in Heq. by apply Hne in Heq.
  - destruct Hp' as [|u' paths' Hu' Hp']; cbn [plain_rows foldr] in Heq.
    { by apply Hne in Heq. }
    assert (u = u') as <-.
    { apply (f_equal (PyStr.split_head "013")) in Heq.
      rewrite !split_head_app, (Hcr u Hu), (Hcr u' Hu') in Heq.
      cbn in Heq. by rewrite !string_app_nil_r in Heq. }
    f_equal. apply IH; [done|].
    apply (f_equal (UrlParse.after_first "013")) in Heq.
    rewrite !after_first_app, (Hcr u Hu) in Heq. cbn in Heq.
    by injection Heq.
Qed.

(** X15: for links that are not empty and hold no comma, quote, carriage
    return or line feed, write_csv writes the header row and then each link
    as it is, each row ended by CR LF, in the order of the list; the list of
    links can be read back from the file: two such lists with the same file
    are equal. *)
Theorem write_csv_plain_links (paths paths' : list string) (out_path : string) :
  Forall (λ u, csv_plain u = true) paths →
  Forall (λ u, csv_plain u = true) paths' →
  write_csv paths out_path
  = (Val (), [EvWrite out_path ("url" +:+ csv_crlf +:+ plain_rows paths)])
  ∧ (write_csv paths out_path = write_csv paths' out_path → paths = paths').
Proof.
  intros Hp Hp'.
  assert (Hrows : ∀ l, Forall (λ u, csv_plain u = true) l →
            foldr (λ url rows, csv_writerow1 url +:+ rows) EmptyString l = plain_rows l).
  { induction 1 as [|u l Hu _ IH]; [done|]. cbn [foldr plain_rows]. rewrite IH.
    unfold csv_writerow1. apply andb_true_iff in Hu as [Ht Hs%negb_true_iff].
    rewrite Ht, Hs. cbn [orb negb]. by rewrite string_app_assoc. }
  assert (Hw : ∀ l, Forall (λ u, csv_plain u = true) l →
            write_csv l out_path
            = (Val (), [EvWrite out_path ("url" +:+ csv_crlf +:+ plain_rows l)])).
  { intros l Hl. unfold write_csv, emit. cbv zeta.
    rewrite csv_content_rows, (Hrows l Hl). done. }
  split; [by apply Hw|].
  rewrite (Hw paths Hp), (Hw paths' Hp'). intros [= H].
  apply (plain_rows_inj paths paths' Hp Hp'). by rewrite !string_app_nil in H.
Qed.

End HarvesterMore.

Lemma fetch_wpcom_pages_witness :
  fetch_posts_via_wpcom_api net_wpcom_posts 2 "example.com"
  = (Val example_posts, rest_schedule (wpcom_url "example.com") 1 3).
Proof.
  assert (Hbs : ∀ i b, [example_posts] !! i = Some b →
                  b ≠ [] ∧ serves net_wpcom_posts (wpcom_url "example.com")
                             (1 + Z.of_nat i) (JArr b)).
  { intros [|i] b Hb; [|done]. injection Hb as <-. split; [done|].
    eexists. split_and!; reflexivity. }
  destruct (fetch_wpcom_pages net_wpcom_posts "example.com" [example_posts] 2
              (mkResponse 200 "[]" (Some (JArr []))) Hbs eq_refl) as (H & _ & _);
    [simpl; lia|].
  exact (H (JArr []) eq_refl eq_refl eq_refl).
Defined.

Lemma fetch_site_rest_pages_witness :
  fetch_posts_via_site_rest net_site_rest_posts 2 "https://example.com"
  = (Val [], rest_schedule (site_rest_url "https://example.com") 1 3).
Proof.
  assert (Hbs : ∀ i b, [example_posts] !! i = Some b →
                  b ≠ [] ∧ serves net_site_rest_posts (site_rest_url "https://example.com")
                             (1 + Z.of_nat i) (JArr b)).
  { intros [|i] b Hb; [|done]. injection Hb as <-. split; [done|].
    eexists. split_and!; reflexivity. }
  destruct (fetch_site_rest_pages net_site_rest_posts "https://example.com" [example_posts] 2
              (mkResponse 403 "" None) Hbs eq_refl) as (_ & H & _); [simpl; lia|].
  apply H. right. right. reflexivity.
Defined.

Lemma rest_clients_unbounded_witness :
  fetch_posts_via_wpcom_api net_endless 5 "example.com"
  = (Diverge, rest_schedule (wpcom_url "example.com") 1 10)
  ∧ fetch_posts_via_site_rest net_endless 5 "https://example.com"
    = (Diverge, rest_schedule (site_rest_url "https://example.com") 1 10).
Proof.
  apply (rest_clients_unbounded net_endless "example.com" "https://example.com" 5);
    intros p _; exists [JNull]; (split; [done|]); eexists; split_and!; reflexivity.
Defined.

Lemma posts_need_every_link_witness :
  ¬ Forall has_link odd_posts
  ∧ ∃ e, link_set odd_posts = inl e
         ∧ harvest_all_post_links net_wpcom_odd_post select_words join_concat str_exn_name
             3 "example.com"
           = first_nonempty_tier
               (Val None,
                trace (fetch_posts_via_wpcom_api net_wpcom_odd_post 3
                         (norm_site "example.com").2)
                ++ [EvStderr (warn_wpcom +:+ str_exn_name e)])
               (rest_tier str_exn_name warn_site
                  (fetch_posts_via_site_rest net_wpcom_odd_post 3
                     (norm_site "example.com").1))
               (scrape_posts_from_paged_lists net_wpcom_odd_post select_words join_concat 3
                  (norm_site "example.com").1 2).
Proof.
  assert (Hbad : ¬ Forall has_link odd_posts).
  { intros H. apply Forall_cons in H as [_ H]. apply Forall_cons in H as [[l Hl] _].
    discriminate Hl. }
  split; [exact Hbad|].
  destruct (posts_need_every_link net_wpcom_odd_post select_words join_concat str_exn_name
              3 "example.com" odd_posts) as [_ H].
  destruct (H Hbad eq_refl) as (e & _ & He & Hrun). by exists e.
Defined.

Lemma link_set_order_independent_witness :
  ∃ s s', link_set example_posts = inr s
          ∧ link_set (reverse example_posts ++ example_posts) = inr s'
          ∧ s = s' ∧ sorted s = sorted s'.
Proof.
  eexists _, _. split; [reflexivity|]. split; [reflexivity|].
  apply (link_set_order_independent example_posts (reverse example_posts ++ example_posts));
    [reflexivity|reflexivity|].
  intros p. rewrite elem_of_app, elem_of_reverse. tauto.
Defined.

Lemma harvest_empty_only_from_scraper_witness :
  out (harvest_all_post_links (net_all 404) select_words join_concat str_exn_name 3
         "example.com") = Val []
  ∧ out (scrape_posts_from_paged_lists (net_all 404) select_words join_concat 3
           (norm_site "example.com").1 2) = Val [].
Proof.
  split; [reflexivity|].
  apply (harvest_empty_only_from_scraper (net_all 404) select_words join_concat
           str_exn_name 3 "example.com"). reflexivity.
Defined.

Lemma extract_page_got_any_witness :
  let r := mkResponse 404 "Not found" None in
  (extract_page select_words join_concat "https://example.com" r {["https://example.com/a"]}).2
  = false
  ∧ (extract_page select_words join_concat "https://example.com" r
       {["https://example.com/a"]}).1 = {["https://example.com/a"]}.
Proof.
  cbv zeta. split; [reflexivity|].
  apply (proj2 (extract_page_got_any select_words join_concat "https://example.com"
                  (mkResponse 404 "Not found" None) {["https://example.com/a"]})).
  reflexivity.
Defined.

Lemma scrape_keeps_home_links_witness :
  let r := mkResponse 200
             "https://example.com/a/ https://other.org/b /c#x http://example.com/d" None in
  net_mixed_links (mkRequest "https://example.com" []) = inr r
  ∧ "https://example.com/c"
    ∈ extract_links select_words join_concat "https://example.com" (text r) ∅
  ∧ "https://example.com/c" ∈ ["https://example.com/a"; "https://example.com/c"].
Proof.
  cbv zeta. split; [reflexivity|].
  assert (Hin : "https://example.com/c"
                ∈ extract_links select_words join_concat "https://example.com"
                    "https://example.com/a/ https://other.org/b /c#x http://example.com/d" ∅)
    by (by vm_compute).
  split; [exact Hin|].
  apply (scrape_keeps_home_links net_mixed_links select_words join_concat 4
           "https://example.com" 2 _ _ eq_refl eq_refl eq_refl _ Hin).
Defined.

Lemma main_usage_error_witness :
  main (net_all 404) select_words join_concat str_exn_name 3 ["get_wp_post_links.py"]
  = (Exit 1, usage_lines)
  ∧ out (main (net_all 404) select_words join_concat str_exn_name 3
           ["get_wp_post_links.py"; "example.com"]) ≠ Exit 1.
Proof.
  split.
  - apply (proj1 (main_usage_error (net_all 404) select_words join_concat str_exn_name 3
                    ["get_wp_post_links.py"])). simpl. lia.
  - apply (proj2 (main_usage_error (net_all 404) select_words join_concat str_exn_name 3
                    ["get_wp_post_links.py"; "example.com"])). reflexivity.
Defined.

Lemma main_writes_after_harvest_witness :
  outputs (trace (main net_wpcom_posts select_words join_concat str_exn_name 3
                    ["get_wp_post_links.py"; "example.com"]))
  = [EvWrite "post_links.csv"
       (csv_content ["https://example.com/a"; "https://example.com/b"]);
     EvStdout "Found 2 posts. Wrote post_links.csv"].
Proof.
  apply (proj1 (main_writes_after_harvest net_wpcom_posts select_words join_concat
                  str_exn_name 3 "get_wp_post_links.py" "example.com")
           ["https://example.com/a"; "https://example.com/b"]).
  reflexivity.
Defined.

Lemma csv_row_injective_witness :
  csv_writerow1 "https://example.com/?s=a,b" = csv_writerow1 "https://example.com/?s=a,b"
  ∧ "https://example.com/?s=a,b" = "https://example.com/?s=a,b".
Proof.
  split; [reflexivity|].
  apply (csv_row_injective "https://example.com/?s=a,b" "https://example.com/?s=a,b").
  reflexivity.
Defined.

Lemma write_csv_plain_links_witness :
  write_csv ["https://example.com/a"; "https://example.com/b"] "post_links.csv"
  = (Val (),
     [EvWrite "post_links.csv"
        ("url" +:+ csv_crlf
         +:+ plain_rows ["https://example.com/a"; "https://example.com/b"])]).
Proof.
  apply (write_csv_plain_links ["https://example.com/a"; "https://example.com/b"]
           ["https://example.com/a"; "https://example.com/b"] "post_links.csv");
    repeat constructor.
Defined.

(** ** More on norm_site and on the normalization of links *)

Lemma startswith_app_mono p s t :
  PyStr.startswith p s = true → PyStr.startswith p (s +:+ t) = true.
Proof.
  revert s. induction p as [|a p IH]; intros [|b s]; cbn [PyStr.startswith]; try done.
  rewrite string_app_cons. cbn [PyStr.startswith].
  destruct (decide (a = b)); [apply IH|done].
Qed.

Lemma netloc_delim_safe d : UrlParse.netloc_delim d = true → UrlParse.unsafe d = false.
Proof.
  unfold UrlParse.netloc_delim. rewrite !orb_true_iff, !bool_decide_eq_true.
  by intros [[-> | ->] | ->].
Qed.

Lemma host_text_app rest d z :
  UrlParse.netloc_delim d = true → host_text (rest +:+ String d z) = host_text rest.
Proof.
  intros Hd. unfold host_text. rewrite remove_unsafe_app. cbn [UrlParse.remove_unsafe].
  rewrite (netloc_delim_safe d Hd). by apply splitnetloc_app.
Qed.

Lemma site_scheme_rest_app site t :
  PyStr.startswith "http://" (site +:+ t) = PyStr.startswith "http://" site →
  PyStr.startswith "https://" (site +:+ t) = PyStr.startswith "https://" site →
  site_scheme_rest (site +:+ t)
  = ((site_scheme_rest site).1, (site_scheme_rest site).2 +:+ t).
Proof.
  intros H1 H2. unfold site_scheme_rest. rewrite H1, H2.
  destruct (PyStr.startswith "http://" site) eqn:Hp.
  - apply startswith_app in Hp. cbn [String.length] in Hp.
    rewrite Hp at 1. by rewrite string_app_assoc.
  - destruct (PyStr.startswith "https://" site) eqn:Hq; [|done].
    apply startswith_app in Hq. cbn [String.length] in Hq.
    rewrite Hq at 1. by rewrite string_app_assoc.
Qed.

(** X16: the base URL that norm_site returns is a fixed point: given back
    to norm_site it yields the same pair; and the hostname holds no '/', '?'
    or '#'. *)
Theorem norm_site_stable (site : string) :
  norm_site (norm_site site).1 = norm_site site
  ∧ ∀ d, UrlParse.netloc_delim d = true → PyStr.contains d (norm_site site).2 = false.
Proof.
  pose proof (norm_site_parts site) as H.
  destruct (site_scheme_rest site) as [sch rest]. destruct H as [-> Hs]. cbn [fst snd].
  split.
  - pose proof (norm_site_parts (sch +:+ "://" +:+ host_text rest)) as H.
    assert (site_scheme_rest (sch +:+ "://" +:+ host_text rest) = (sch, host_text rest))
      as Hr by (by destruct Hs as [-> | ->]).
    rewrite Hr in H. destruct H as [-> _]. by rewrite host_text_idem.
  - intros d Hd. by apply splitnetloc_no_delim.
Qed.

(** X17: norm_site reads nothing past the host: what follows a '/', '?'
    or '#' added to the input does not change the result, provided the
    addition does not complete a leading "http://" or "https://". *)
Theorem norm_site_ignores_path (site : string) (d : ascii) (z : string) :
  UrlParse.netloc_delim d = true →
  PyStr.startswith "http://" (site +:+ String d z) = PyStr.startswith "http://" site →
  PyStr.startswith "https://" (site +:+ String d z) = PyStr.startswith "https://" site →
  norm_site (site +:+ String d z) = norm_site site.
Proof.
  intros Hd H1 H2.
  pose proof (norm_site_parts (site +:+ String d z)) as Ha.
  pose proof (norm_site_parts site) as Hb.
  rewrite (site_scheme_rest_app site _ H1 H2) in Ha.
  destruct (site_scheme_rest site) as [sch rest]. cbn [fst snd] in Ha.
  destruct Ha as [-> _], Hb as [-> _]. by rewrite (host_text_app rest d z Hd).
Qed.

Lemma norm_site_ignores_path_witness :
  UrlParse.netloc_delim "/" = true
  ∧ PyStr.startswith "http://" ("example.com" +:+ "/blog/?p=1")
    = PyStr.startswith "http://" "example.com"
  ∧ PyStr.startswith "https://" ("example.com" +:+ "/blog/?p=1")
    = PyStr.startswith "https://" "example.com"
  ∧ norm_site "example.com/blog/?p=1" = norm_site "example.com".
Proof.
  split; [reflexivity|]. split; [reflexivity|]. split; [reflexivity|].
  apply (norm_site_ignores_path "example.com" "/" "blog/?p=1"); reflexivity.
Defined.

Lemma rstrip_snoc c a : PyStr.rstrip c (a +:+ String c "") = PyStr.rstrip c a.
Proof.
  induction a as [|x a IH].
  - rewrite string_app_nil. cbn. by destruct (decide (c = c)).
  - rewrite string_app_cons. cbn [PyStr.rstrip]. by rewrite IH.
Qed.

Lemma rstrip_slashes a k : PyStr.rstrip "/" (a +:+ slashes k) = PyStr.rstrip "/" a.
Proof.
  induction k as [|k IH]; [by rewrite string_app_nil_r|].
  by rewrite slashes_snoc, <- string_app_assoc, rstrip_snoc.
Qed.

Lemma contains_slashes k : PyStr.contains "#" (slashes k) = false.
Proof. induction k as [|k IH]; [done|]. cbn. exact IH. Qed.

(** X18: the normalization identifies exactly the links that differ in
    trailing slashes and in the fragment: every string is its normal form
    followed by slashes and, possibly, a fragment; and a normal form followed
    by any number of slashes and any fragment has that normal form. *)
Theorem normalize_link_variants (s : string) :
  (∃ k, s = normalize_link s +:+ slashes k
            +:+ (if PyStr.contains "#" s
                 then String "#" (UrlParse.after_first "#" s) else ""))
  ∧ (∀ n k f, normalized n →
       normalize_link (n +:+ slashes k) = n
       ∧ normalize_link (n +:+ slashes k +:+ String "#" f) = n).
Proof.
  split.
  - unfold normalize_link.
    destruct (rstrip_decomp (PyStr.split_head "#" s)) as [k Hk]. exists k.
    rewrite <- string_app_assoc, <- Hk. apply split_head_decomp.
  - intros n k f [Hh Hs].
    assert (Hc : PyStr.contains "#" (n +:+ slashes k) = false)
      by (by rewrite contains_app, Hh, contains_slashes).
    unfold normalize_link. split.
    + rewrite (split_head_no_sep _ _ Hc), rstrip_slashes. by apply rstrip_no_trailing.
    + rewrite <- string_app_assoc, split_head_app, Hc. cbn [PyStr.split_head].
      destruct (decide ("#"%char = "#"%char)); [|done].
      rewrite string_app_nil_r, rstrip_slashes. by apply rstrip_no_trailing.
Qed.

Lemma normalize_link_variants_witness :
  normalized "https://example.com/a"
  ∧ normalize_link ("https://example.com/a" +:+ slashes 2) = "https://example.com/a"
  ∧ normalize_link ("https://example.com/a" +:+ slashes 2 +:+ String "#" "top")
    = "https://example.com/a".
Proof.
  split; [by split|].
  apply (proj2 (normalize_link_variants "") "https://example.com/a" 2%nat "top").
  by split.
Defined.

(** ** More on the XML pretty-printer *)



